(** * Contact book (goit-react-hw-08): session store, contacts store,
      HTTP adapter and derived filtering

    A shallow embedding of the Redux slices, the async thunks, the axios
    adapter and the contact form of the application, with the properties
    of the specification proved about them.

    Conventions.
    - A JavaScript string is a sequence of UTF-16 code units.  The model
      covers the strings whose code units are below 256, one [ascii] per
      code unit; [trim] and [toLowerCase] are the JavaScript functions
      restricted to that range.
    - A value that is either a string or absent ([null]/[undefined]) is an
      [option string]; it is truthy when it is [Some] of a non-empty string.
    - [localStorage] is a finite map from keys to strings.
    - A promise is modelled by its settlement: the remote outcome of every
      HTTP call is an argument of the operation that issues it, so that a
      statement quantified over that argument covers every behaviour of
      the server and of the network. *)

From Stdlib Require Import NArith Ascii String List.
From stdpp Require Import base option list strings gmap pretty.

Local Open Scope string_scope.

(** ** JavaScript strings *)

Module Js.

(** WhiteSpace and LineTerminator code units below 256:
    TAB, LF, VT, FF, CR, SP and NBSP. *)
Definition isWhiteSpace (c : ascii) : bool :=
  let n := N_of_ascii c in
  ((9 <=? n) && (n <=? 13) || (n =? 32) || (n =? 160))%N.

Fixpoint trimStart (s : string) : string :=
  match s with
  | EmptyString => EmptyString
  | String c s' => if isWhiteSpace c then trimStart s' else s
  end.

Fixpoint trimEnd (s : string) : string :=
  match s with
  | EmptyString => EmptyString
  | String c s' =>
      match trimEnd s' with
      | EmptyString => if isWhiteSpace c then EmptyString else String c EmptyString
      | t => String c t
      end
  end.

(** [String.prototype.trim] *)
Definition trim (s : string) : string := trimEnd (trimStart s).

(** Lower-case mapping of one code unit: A-Z, and the Latin-1 capitals
    U+00C0-U+00DE except the multiplication sign U+00D7. *)
Definition lowerChar (c : ascii) : ascii :=
  let n := N_of_ascii c in
  if ((65 <=? n) && (n <=? 90) ||
      (192 <=? n) && (n <=? 222) && negb (n =? 215))%N
  then ascii_of_N (n + 32) else c.

(** [String.prototype.toLowerCase] *)
Fixpoint toLowerCase (s : string) : string :=
  match s with
  | EmptyString => EmptyString
  | String c s' => String (lowerChar c) (toLowerCase s')
  end.

(** [sub] occurs in [s] at position 0. *)
Fixpoint startsWith (s sub : string) : bool :=
  match sub, s with
  | EmptyString, _ => true
  | String _ _, EmptyString => false
  | String c sub', String d s' => Ascii.eqb c d && startsWith s' sub'
  end.

(** [String.prototype.includes] (search from position 0) *)
Fixpoint includes (s sub : string) : bool :=
  startsWith s sub ||
  match s with
  | EmptyString => false
  | String _ s' => includes s' sub
  end.

(** Truthiness of a string: only the empty string is falsy. *)
Definition truthy (s : string) : bool :=
  match s with EmptyString => false | _ => true end.

(** Truthiness of a value that is a string or absent. *)
Definition truthy_opt (v : option string) : bool :=
  match v with Some s => truthy s | None => false end.

(** [a || b] where [a] is a string or absent and [b] a string. *)
Definition or_else (a : option string) (b : string) : string :=
  match a with
  | Some s => if truthy s then s else b
  | None => b
  end.

End Js.

(** ** Data model *)

Inductive Status := idle | loading | succeeded | failed.

(** A user profile as the auth API returns it: [{ name, email }]. *)
Record User := { user_name : string; user_email : string }.

(** A contact of the collection.  [email] and [avatar] may be absent. *)
Record Contact := {
  id : string;
  name : string;
  phone : string;
  email : option string;
  avatar : option string;
}.

(** The four string fields of the contact form; also the body the form
    submits. *)
Record FormData := {
  form_name : string;
  form_phone : string;
  form_email : string;
  form_avatar : string;
}.

(** [{ user, token }], the data of a signup or login response. *)
Record Credential := { cred_user : User; cred_token : string }.

(** Outcome of a dispatched async thunk: the [fulfilled] action with its
    payload, or the [rejected] action with the value the payload creator
    gave to [rejectWithValue] (every payload creator of the application
    catches its errors and rejects through [rejectWithValue]). *)
Inductive Settled (P : Type) :=
  | fulfilled (payload : P)
  | rejected (payload : string).
Arguments fulfilled {P} payload.
Arguments rejected {P} payload.

(** [action.error.message] of an action rejected with [rejectWithValue]. *)
Definition rejected_error_message : string := "Rejected".

(** ** store/authSlice.js *)

Module authSlice.

Record State := {
  user : option User;
  token : option string;
  isLoggedIn : bool;
  isRefreshing : bool;
  status : Status;
  error : option string;
}.

Definition initialState : State :=
  {| user := None; token := None; isLoggedIn := false;
     isRefreshing := false; status := idle; error := None |}.

Inductive Action :=
  | setCredentials (u : option User) (t : option string)
  | clearCredentials
  | register_pending
  | register_fulfilled (payload : Credential)
  | register_rejected (payload : option string)
  | login_pending
  | login_fulfilled (payload : Credential)
  | login_rejected (payload : option string)
  | logout_pending
  | logout_fulfilled
  | logout_rejected
  | refreshUser_pending
  | refreshUser_fulfilled (payload : User)
  | refreshUser_rejected (payload : option string).

Definition reducer (state : State) (action : Action) : State :=
  match action with
  | setCredentials u t =>
      let state1 :=
        match u with
        | Some _ =>
            {| user := u; token := token state; isLoggedIn := isLoggedIn state;
               isRefreshing := isRefreshing state; status := status state;
               error := error state |}
        | None => state
        end in
      if Js.truthy_opt t then
        {| user := user state1; token := t; isLoggedIn := true;
           isRefreshing := isRefreshing state1; status := status state1;
           error := error state1 |}
      else state1
  | clearCredentials =>
      {| user := None; token := None; isLoggedIn := false;
         isRefreshing := isRefreshing state; status := status state;
         error := None |}
  | register_pending | login_pending =>
      {| user := user state; token := token state;
         isLoggedIn := isLoggedIn state; isRefreshing := isRefreshing state;
         status := loading; error := None |}
  | register_fulfilled payload | login_fulfilled payload =>
      {| user := Some (cred_user payload); token := Some (cred_token payload);
         isLoggedIn := true; isRefreshing := isRefreshing state;
         status := succeeded; error := None |}
  | register_rejected payload =>
      {| user := None; token := None; isLoggedIn := false;
         isRefreshing := isRefreshing state; status := failed;
         error := Some (Js.or_else payload "Registration failed") |}
  | login_rejected payload =>
      {| user := None; token := None; isLoggedIn := false;
         isRefreshing := isRefreshing state; status := failed;
         error := Some (Js.or_else payload "Login failed") |}
  | logout_pending =>
      {| user := user state; token := token state;
         isLoggedIn := isLoggedIn state; isRefreshing := isRefreshing state;
         status := loading; error := error state |}
  | logout_fulfilled | logout_rejected =>
      {| user := None; token := None; isLoggedIn := false;
         isRefreshing := isRefreshing state; status := idle; error := None |}
  | refreshUser_pending =>
      {| user := user state; token := token state;
         isLoggedIn := isLoggedIn state; isRefreshing := true;
         status := status state; error := None |}
  | refreshUser_fulfilled payload =>
      {| user := Some payload; token := token state; isLoggedIn := true;
         isRefreshing := false; status := succeeded; error := error state |}
  | refreshUser_rejected _ =>
      {| user := None; token := None; isLoggedIn := false;
         isRefreshing := false; status := status state;
         error := Some "Session expired" |}
  end.

End authSlice.

(** ** store/contactsSlice.js *)

Module contactsSlice.

Record State := {
  items : list Contact;
  status : Status;
  error : option string;
}.

Definition initialState : State :=
  {| items := []; status := idle; error := None |}.

(** The actions of the four thunks.  A fulfilled [updateContact] carries
    [action.meta.arg.id] next to its payload. *)
Inductive Action :=
  | fetchContacts_pending
  | fetchContacts_fulfilled (payload : list Contact)
  | fetchContacts_rejected (payload : option string)
  | addContact_pending
  | addContact_fulfilled (payload : Contact)
  | addContact_rejected (payload : option string)
  | updateContact_pending
  | updateContact_fulfilled (arg_id : string) (payload : Contact)
  | updateContact_rejected (payload : option string)
  | deleteContact_pending
  | deleteContact_fulfilled (payload : string)
  | deleteContact_rejected (payload : option string).

(** [Array.prototype.findIndex]: the first index whose element satisfies
    the predicate, [None] for the result -1. *)
Fixpoint findIndex {A : Type} (p : A -> bool) (l : list A) : option nat :=
  match l with
  | [] => None
  | x :: l' => if p x then Some 0 else S <$> findIndex p l'
  end.

Definition pending (state : State) : State :=
  {| items := items state; status := loading; error := None |}.

Definition rejected_case (state : State) (payload : option string) : State :=
  {| items := items state; status := failed;
     error := Some (Js.or_else payload rejected_error_message) |}.

Definition reducer (state : State) (action : Action) : State :=
  match action with
  | fetchContacts_pending | addContact_pending
  | updateContact_pending | deleteContact_pending => pending state
  | fetchContacts_rejected payload | addContact_rejected payload
  | updateContact_rejected payload | deleteContact_rejected payload =>
      rejected_case state payload
  | fetchContacts_fulfilled payload =>
      {| items := payload; status := succeeded; error := error state |}
  | addContact_fulfilled payload =>
      {| items := payload :: items state; status := succeeded;
         error := error state |}
  | updateContact_fulfilled arg_id payload =>
      let index := findIndex (fun contact => String.eqb (id contact) arg_id)
                             (items state) in
      {| items := match index with
                  | Some i => <[i := payload]> (items state)
                  | None => items state
                  end;
         status := succeeded; error := error state |}
  | deleteContact_fulfilled payload =>
      {| items := List.filter
                    (fun contact => negb (String.eqb (id contact) payload))
                    (items state);
         status := succeeded; error := error state |}
  end.

End contactsSlice.

(** ** store/filtersSlice.js *)

Module filtersSlice.

Record State := { search : string; filter : string }.

Definition initialState : State := {| search := ""; filter := "all" |}.

Inductive Action :=
  | setSearch (payload : string)
  | setFilter (payload : string).

Definition reducer (state : State) (action : Action) : State :=
  match action with
  | setSearch payload => {| search := payload; filter := filter state |}
  | setFilter payload => {| search := search state; filter := payload |}
  end.

End filtersSlice.

(** ** The store *)

Record RootState := {
  auth : authSlice.State;
  contacts : contactsSlice.State;
  filters : filtersSlice.State;
}.

Inductive Action :=
  | AuthAction (a : authSlice.Action)
  | ContactsAction (a : contactsSlice.Action)
  | FiltersAction (a : filtersSlice.Action).

(** Every slice reducer ignores the actions of the other slices. *)
Definition rootReducer (state : RootState) (action : Action) : RootState :=
  match action with
  | AuthAction a =>
      {| auth := authSlice.reducer (auth state) a;
         contacts := contacts state; filters := filters state |}
  | ContactsAction a =>
      {| auth := auth state;
         contacts := contactsSlice.reducer (contacts state) a;
         filters := filters state |}
  | FiltersAction a =>
      {| auth := auth state; contacts := contacts state;
         filters := filtersSlice.reducer (filters state) a |}
  end.

(** ** Derived filtering (selectFilteredContacts of contactsSlice.js) *)

Definition matchesSearch (normalizedSearch : string) (contact : Contact) : bool :=
  if Js.truthy normalizedSearch then
    Js.includes
      (Js.toLowerCase
         (name contact +:+ " " +:+ phone contact +:+ " " +:+
          Js.or_else (email contact) ""))
      normalizedSearch
  else true.

Definition matchesFilter (filter : string) (contact : Contact) : bool :=
  String.eqb filter "all" ||
  (String.eqb filter "hasEmail" && Js.truthy_opt (email contact)) ||
  (String.eqb filter "hasPhone" && Js.truthy (phone contact)).

(** The result function of the selector, on its three inputs. *)
Definition filteredView (items : list Contact) (search filter : string)
  : list Contact :=
  let normalizedSearch := Js.toLowerCase (Js.trim search) in
  List.filter
    (fun contact => matchesSearch normalizedSearch contact &&
                    matchesFilter filter contact)
    items.

Definition selectFilteredContacts (state : RootState) : list Contact :=
  filteredView (contactsSlice.items (contacts state))
               (filtersSlice.search (filters state))
               (filtersSlice.filter (filters state)).

(** ** The running application: store, durable storage, network *)

Inductive Method := GET | POST | PUT | DELETE.

Inductive Body :=
  | NoBody
  | UserBody (name email password : string)
  | LoginBody (email password : string)
  | ContactBody (contact : FormData).

(** A request as it leaves the browser. *)
Record Request := {
  method : Method;
  baseURL : string;
  url : string;
  authorization : option string;
  body : Body;
}.

Record App := {
  store : RootState;
  localStorage : gmap string string;
  network : list Request;   (* the requests sent so far, latest first *)
}.

(** Effectful code: a state transformer over the application. *)
Definition M (A : Type) : Type := App -> A * App.

Definition ret {A : Type} (a : A) : M A := fun app => (a, app).

Definition bind {A B : Type} (m : M A) (k : A -> M B) : M B :=
  fun app => let (a, app') := m app in k a app'.

Notation "'do' x <- m ; k" := (bind m (fun x => k))
  (at level 10, x name, m at level 100, k at level 200).
Notation "m ;; k" := (bind m (fun _ => k))
  (at level 100, k at level 200, right associativity).

Definition getItem (key : string) : M (option string) :=
  fun app => (localStorage app !! key, app).

Definition setItem (key value : string) : M unit :=
  fun app => (tt, {| store := store app;
                     localStorage := <[key := value]> (localStorage app);
                     network := network app |}).

Definition removeItem (key : string) : M unit :=
  fun app => (tt, {| store := store app;
                     localStorage := delete key (localStorage app);
                     network := network app |}).

Definition transmit (request : Request) : M unit :=
  fun app => (tt, {| store := store app;
                     localStorage := localStorage app;
                     network := request :: network app |}).

Definition dispatch (action : Action) : M unit :=
  fun app => (tt, {| store := rootReducer (store app) action;
                     localStorage := localStorage app;
                     network := network app |}).

(** ** axios *)

Module axios.

(** [error.response] of a request the server answered with an error
    status: the status and [data.message], which may be absent. *)
Record Response := { status : N; data_message : option string }.

(** An axios error; [response] is absent when no response was received. *)
Record Error := { message : string; response : option Response }.

(** How a request settles: with the data of a 2xx response, or with an
    error (an error response, or a network failure). *)
Inductive Outcome (A : Type) :=
  | resolve (data : A)
  | reject (error : Error).
Arguments resolve {A} data.
Arguments reject {A} error.

(** [error.response?.status] *)
Definition response_status (error : Error) : option N :=
  status <$> response error.

(** [error.response?.data?.message] *)
Definition response_message (error : Error) : option string :=
  response error ≫= data_message.

End axios.

(** ** api/axios.js: the adapter of the auth API *)

Module api.

Definition api_baseURL : string := "https://connections-api.goit.global".

Definition request_interceptor (config : Request) : M Request :=
  do token <- getItem "token";
  match token with
  | Some t =>
      if Js.truthy t then
        ret {| method := method config; baseURL := baseURL config;
               url := url config; authorization := Some ("Bearer " +:+ t);
               body := body config |}
      else ret config
  | None => ret config
  end.

(** Success handler of the response interceptor. *)
Definition response_fulfilled {A : Type} (response : A) : M (axios.Outcome A) :=
  ret (axios.resolve response).

(** Error handler of the response interceptor. *)
Definition response_rejected {A : Type} (error : axios.Error)
  : M (axios.Outcome A) :=
  (if bool_decide (axios.response_status error = Some 401%N)
   then removeItem "token" else ret tt);;
  ret (axios.reject error).

(** One call through the adapter; [remote] is how the server and the
    network settle it. *)
Definition send {A : Type} (m : Method) (path : string) (b : Body)
    (remote : axios.Outcome A) : M (axios.Outcome A) :=
  do config <- request_interceptor
                 {| method := m; baseURL := api_baseURL; url := path;
                    authorization := None; body := b |};
  transmit config;;
  match remote with
  | axios.resolve response => response_fulfilled response
  | axios.reject error => response_rejected error
  end.

End api.

(** ** createAsyncThunk *)

(** Dispatching a thunk: the [pending] action, then the payload creator,
    then the [fulfilled] or [rejected] action, which is also what the
    caller of [dispatch] receives. *)
Definition createAsyncThunk {P : Type}
    (pending : Action) (on_fulfilled : P -> Action)
    (on_rejected : option string -> Action)
    (payloadCreator : M (Settled P)) : M (Settled P) :=
  dispatch pending;;
  do result <- payloadCreator;
  dispatch match result with
           | fulfilled payload => on_fulfilled payload
           | rejected value => on_rejected (Some value)
           end;;
  ret result.

(** ** redux/authOps.js *)

Module authOps.

Definition register_payloadCreator (name email password : string)
    (remote : axios.Outcome Credential) : M (Settled Credential) :=
  do response <- api.send POST "/users/signup"
                   (UserBody name email password) remote;
  match response with
  | axios.resolve data =>
      setItem "token" (cred_token data);;
      ret (fulfilled data)
  | axios.reject error =>
      let statusCode := axios.response_status error in
      let message :=
        Js.or_else
          (Some (Js.or_else (axios.response_message error)
                            (axios.message error)))
          "Registration failed" in
      let errorMessage :=
        match statusCode with
        | Some code =>
            if ((code =? 400) || (code =? 409))%N
            then pretty code +:+ ":" +:+ message
            else message
        | None => message
        end in
      ret (rejected errorMessage)
  end.

Definition register (name email password : string)
    (remote : axios.Outcome Credential) : M (Settled Credential) :=
  createAsyncThunk
    (AuthAction authSlice.register_pending)
    (fun payload => AuthAction (authSlice.register_fulfilled payload))
    (fun payload => AuthAction (authSlice.register_rejected payload))
    (register_payloadCreator name email password remote).

Definition login_payloadCreator (email password : string)
    (remote : axios.Outcome Credential) : M (Settled Credential) :=
  do response <- api.send POST "/users/login" (LoginBody email password) remote;
  match response with
  | axios.resolve data =>
      setItem "token" (cred_token data);;
      ret (fulfilled data)
  | axios.reject error =>
      let message :=
        Js.or_else
          (Some (Js.or_else (axios.response_message error)
                            (axios.message error)))
          "Login failed" in
      ret (rejected message)
  end.

Definition login (email password : string)
    (remote : axios.Outcome Credential) : M (Settled Credential) :=
  createAsyncThunk
    (AuthAction authSlice.login_pending)
    (fun payload => AuthAction (authSlice.login_fulfilled payload))
    (fun payload => AuthAction (authSlice.login_rejected payload))
    (login_payloadCreator email password remote).

(** [try { await api.post(...) } catch { console.warn(...) }
     finally { localStorage.removeItem('token') }; return null] *)
Definition logout_payloadCreator (remote : axios.Outcome unit)
  : M (Settled unit) :=
  do response <- api.send POST "/users/logout" NoBody remote;
  match response with
  | axios.resolve _ => ret tt
  | axios.reject _ => ret tt   (* console.warn *)
  end;;
  removeItem "token";;
  ret (fulfilled tt).

Definition logout (remote : axios.Outcome unit) : M (Settled unit) :=
  createAsyncThunk
    (AuthAction authSlice.logout_pending)
    (fun _ => AuthAction authSlice.logout_fulfilled)
    (fun _ => AuthAction authSlice.logout_rejected)
    (logout_payloadCreator remote).

Definition refreshUser_payloadCreator (remote : axios.Outcome User)
  : M (Settled User) :=
  do token <- getItem "token";
  if negb (Js.truthy_opt token) then ret (rejected "Token not found")
  else
    do response <- api.send GET "/users/current" NoBody remote;
    match response with
    | axios.resolve data => ret (fulfilled data)
    | axios.reject error =>
        removeItem "token";;
        let message :=
          Js.or_else
            (Some (Js.or_else (axios.response_message error)
                              (axios.message error)))
            "Session expired" in
        ret (rejected message)
    end.

Definition refreshUser (remote : axios.Outcome User) : M (Settled User) :=
  createAsyncThunk
    (AuthAction authSlice.refreshUser_pending)
    (fun payload => AuthAction (authSlice.refreshUser_fulfilled payload))
    (fun payload => AuthAction (authSlice.refreshUser_rejected payload))
    (refreshUser_payloadCreator remote).

End authOps.

(** ** redux/contactsOps.js *)

Module contactsOps.

Definition contacts_baseURL : string :=
  "https://698d85bbb79d1c928ed59d0f.mockapi.io/contacts".

(** One call through the axios instance of this file, which has no
    interceptor. *)
Definition send {A : Type} (m : Method) (path : string) (b : Body)
    (remote : axios.Outcome A) : M (axios.Outcome A) :=
  transmit {| method := m; baseURL := contacts_baseURL; url := path;
              authorization := None; body := b |};;
  ret remote.

(** [error?.message || fallback] *)
Definition error_message (error : axios.Error) (fallback : string) : string :=
  Js.or_else (Some (axios.message error)) fallback.

Definition fetchContacts (remote : axios.Outcome (list Contact))
  : M (Settled (list Contact)) :=
  createAsyncThunk
    (ContactsAction contactsSlice.fetchContacts_pending)
    (fun payload => ContactsAction (contactsSlice.fetchContacts_fulfilled payload))
    (fun payload => ContactsAction (contactsSlice.fetchContacts_rejected payload))
    (do response <- send GET "/" NoBody remote;
     match response with
     | axios.resolve data => ret (fulfilled data)
     | axios.reject error =>
         ret (rejected (error_message error "Failed to fetch contacts"))
     end).

Definition addContact (contact : FormData) (remote : axios.Outcome Contact)
  : M (Settled Contact) :=
  createAsyncThunk
    (ContactsAction contactsSlice.addContact_pending)
    (fun payload => ContactsAction (contactsSlice.addContact_fulfilled payload))
    (fun payload => ContactsAction (contactsSlice.addContact_rejected payload))
    (do response <- send POST "/" (ContactBody contact) remote;
     match response with
     | axios.resolve data => ret (fulfilled data)
     | axios.reject error =>
         ret (rejected (error_message error "Failed to add contact"))
     end).

Definition updateContact (id : string) (updates : FormData)
    (remote : axios.Outcome Contact) : M (Settled Contact) :=
  createAsyncThunk
    (ContactsAction contactsSlice.updateContact_pending)
    (fun payload =>
       ContactsAction (contactsSlice.updateContact_fulfilled id payload))
    (fun payload => ContactsAction (contactsSlice.updateContact_rejected payload))
    (do response <- send PUT ("/" +:+ id) (ContactBody updates) remote;
     match response with
     | axios.resolve data => ret (fulfilled data)
     | axios.reject error =>
         ret (rejected (error_message error "Failed to update contact"))
     end).

Definition deleteContact (id : string) (remote : axios.Outcome unit)
  : M (Settled string) :=
  createAsyncThunk
    (ContactsAction contactsSlice.deleteContact_pending)
    (fun payload => ContactsAction (contactsSlice.deleteContact_fulfilled payload))
    (fun payload => ContactsAction (contactsSlice.deleteContact_rejected payload))
    (do response <- send DELETE ("/" +:+ id) NoBody remote;
     match response with
     | axios.resolve _ => ret (fulfilled id)
     | axios.reject error =>
         ret (rejected (error_message error "Failed to delete contact"))
     end).

End contactsOps.

(** ** components/ContactForm.jsx and App.jsx *)

Module ContactForm.

Definition emptyContact : FormData :=
  {| form_name := ""; form_phone := ""; form_email := ""; form_avatar := "" |}.

(** The submit handler; its result is the state of the form afterwards. *)
Definition handleSubmit (onSubmit : FormData -> M unit) (formData : FormData)
  : M FormData :=
  let payload :=
    {| form_name := Js.trim (form_name formData);
       form_phone := Js.trim (form_phone formData);
       form_email := Js.trim (form_email formData);
       form_avatar := Js.trim (form_avatar formData) |} in
  if negb (Js.truthy (form_name payload)) || negb (Js.truthy (form_phone payload))
  then ret formData
  else onSubmit payload;; ret emptyContact.

End ContactForm.

(** [handleSubmit] of App.jsx: [dispatch(addContact(payload))]. *)
Definition App_handleSubmit (remote : axios.Outcome Contact) (payload : FormData)
  : M unit :=
  contactsOps.addContact payload remote;; ret tt.

(** The add operation as the user triggers it: the form of App.jsx
    submitted with [formData]. *)
Definition submitContactForm (remote : axios.Outcome Contact)
    (formData : FormData) : M FormData :=
  ContactForm.handleSubmit (App_handleSubmit remote) formData.

(** ** Specification vocabulary *)

(** [sub] occurs in [s] as a contiguous run of code units. *)
Definition Substring (sub s : string) : Prop :=
  exists before after : string, s = before +:+ sub +:+ after.

(** [kept] is [l] with exactly the elements satisfying [P] kept, in their
    original order and with their multiplicity. *)
Inductive KeepsExactly {A : Type} (P : A -> Prop) : list A -> list A -> Prop :=
  | keeps_nil : KeepsExactly P [] []
  | keeps_cons x l kept :
      P x -> KeepsExactly P l kept -> KeepsExactly P (x :: l) (x :: kept)
  | keeps_skip x l kept :
      ~ P x -> KeepsExactly P l kept -> KeepsExactly P (x :: l) kept.

(** The email of a contact, the empty string when it is absent. *)
Definition email_text (contact : Contact) : string :=
  match email contact with Some e => e | None => "" end.

(** The category filter as the specification words it. *)
Definition passesCategory (filter : string) (contact : Contact) : Prop :=
  filter = "all" \/
  (filter = "hasEmail" /\ email_text contact <> "") \/
  (filter = "hasPhone" /\ phone contact <> "").

(** The search predicate as the specification words it: the trimmed,
    lower-cased search text occurs in the concatenation of name, phone
    and email, compared without regard to case. *)
Definition matchesConcatenation (search : string) (contact : Contact) : Prop :=
  Substring (Js.toLowerCase (Js.trim search))
            (Js.toLowerCase
               (name contact +:+ phone contact +:+ email_text contact)).

(** The search predicate of the code: the three fields are joined by
    single spaces before the comparison. *)
Definition matchesJoined (search : string) (contact : Contact) : Prop :=
  Substring (Js.toLowerCase (Js.trim search))
            (Js.toLowerCase
               (name contact +:+ " " +:+ phone contact +:+ " " +:+
                email_text contact)).

(** The session is anonymous. *)
Definition anonymous (state : authSlice.State) : Prop :=
  authSlice.user state = None /\
  authSlice.token state = None /\
  authSlice.isLoggedIn state = false.

(** The text of a failed call: the message of the error response when the
    server sent a non-empty one, else the message of the error when it is
    not empty, else [fallback]. *)
Definition failure_text (error : axios.Error) (fallback : string) : string :=
  match axios.response error with
  | Some {| axios.data_message := Some (String c s) |} => String c s
  | _ =>
      match axios.message error with
      | EmptyString => fallback
      | String c s => String c s
      end
  end.

(** The request header the interceptor builds from the stored token. *)
Definition bearer (stored : option string) : option string :=
  match stored with
  | Some t => if Js.truthy t then Some ("Bearer " +:+ t) else None
  | None => None
  end.

(** ** Concrete data for the examples *)

(** The store as [configureStore] creates it. *)
Definition initialStore : RootState :=
  {| auth := authSlice.initialState;
     contacts := contactsSlice.initialState;
     filters := filtersSlice.initialState |}.

(** The application at its start, with nothing in the durable storage. *)
Definition freshApp : App :=
  {| store := initialStore; localStorage := ∅; network := [] |}.

(** The application of a logged-in user, with two contacts loaded. *)
Definition aliApp : App :=
  {| store :=
       {| auth :=
            {| authSlice.user :=
                 Some {| user_name := "Ali"; user_email := "ali@x.com" |};
               authSlice.token := Some "jwt-1";
               authSlice.isLoggedIn := true;
               authSlice.isRefreshing := false;
               authSlice.status := succeeded;
               authSlice.error := None |};
          contacts :=
            {| contactsSlice.items :=
                 [ {| id := "1"; name := "Ann"; phone := "555";
                      email := None; avatar := None |};
                   {| id := "2"; name := "Bo"; phone := "222";
                      email := Some "bo@x.com"; avatar := None |} ];
               contactsSlice.status := succeeded;
               contactsSlice.error := None |};
          filters := filtersSlice.initialState |};
     localStorage := {[ "token" := "jwt-1" ]};
     network := [] |}.

(** The server refuses a signup for an address already in use. *)
Definition conflict : axios.Error :=
  {| axios.message := "Request failed with status code 409";
     axios.response :=
       Some {| axios.status := 409;
               axios.data_message := Some "User already exists" |} |}.

(** The server refuses the credential. *)
Definition unauthorized : axios.Error :=
  {| axios.message := "Request failed with status code 401";
     axios.response :=
       Some {| axios.status := 401;
               axios.data_message := Some "Please authenticate" |} |}.

(** No response was received. *)
Definition offline : axios.Error :=
  {| axios.message := "Network Error"; axios.response := None |}.

(** ** redux/contactsOps.js, the variant behind the adapter *)

(** The thunks of the authenticated contacts API that use GET, POST and
    DELETE; they call through [api.send], so the interceptors apply. *)
Module contactsApiOps.

Definition fetchContacts (remote : axios.Outcome (list Contact))
  : M (Settled (list Contact)) :=
  createAsyncThunk
    (ContactsAction contactsSlice.fetchContacts_pending)
    (fun payload => ContactsAction (contactsSlice.fetchContacts_fulfilled payload))
    (fun payload => ContactsAction (contactsSlice.fetchContacts_rejected payload))
    (do response <- api.send GET "/contacts" NoBody remote;
     match response with
     | axios.resolve data => ret (fulfilled data)
     | axios.reject error =>
         ret (rejected
                (contactsOps.error_message error "Failed to fetch contacts"))
     end).

Definition addContact (contact : FormData) (remote : axios.Outcome Contact)
  : M (Settled Contact) :=
  createAsyncThunk
    (ContactsAction contactsSlice.addContact_pending)
    (fun payload => ContactsAction (contactsSlice.addContact_fulfilled payload))
    (fun payload => ContactsAction (contactsSlice.addContact_rejected payload))
    (do response <- api.send POST "/contacts" (ContactBody contact) remote;
     match response with
     | axios.resolve data => ret (fulfilled data)
     | axios.reject error =>
         ret (rejected
                (contactsOps.error_message error "Failed to add contact"))
     end).

Definition deleteContact (id : string) (remote : axios.Outcome unit)
  : M (Settled string) :=
  createAsyncThunk
    (ContactsAction contactsSlice.deleteContact_pending)
    (fun payload => ContactsAction (contactsSlice.deleteContact_fulfilled payload))
    (fun payload => ContactsAction (contactsSlice.deleteContact_rejected payload))
    (do response <- api.send DELETE ("/contacts/" +:+ id) NoBody remote;
     match response with
     | axios.resolve _ => ret (fulfilled id)
     | axios.reject error =>
         ret (rejected
                (contactsOps.error_message error "Failed to delete contact"))
     end).

End contactsApiOps.

(** ** main.jsx: the start of the application *)

(** [const token = localStorage.getItem('token');
     if (token) { store.dispatch(setCredentials({ token }));
                  store.dispatch(refreshUser()) }] *)
Definition main (remote : axios.Outcome User) : M unit :=
  do token <- getItem "token";
  if Js.truthy_opt token then
    dispatch (AuthAction (authSlice.setCredentials None token));;
    authOps.refreshUser remote;;
    ret tt
  else ret tt.

(** ** Route guards and navigation bar *)

(** What a guard renders. *)
Inductive View :=
  | Spinner                    (* the loading indicator *)
  | Redirect (to : string)     (* <Navigate to=... replace /> *)
  | Children.                  (* the guarded page *)

Definition PrivateRoute (state : RootState) : View :=
  if authSlice.isRefreshing (auth state) then Spinner
  else if negb (authSlice.isLoggedIn (auth state)) then Redirect "/login"
  else Children.

Definition PublicRoute (state : RootState) : View :=
  if authSlice.isLoggedIn (auth state) then Redirect "/contacts"
  else Children.

(** ** Forms of the session: LoginForm, RegisterForm, UserMenu *)

(** The text of a notification.  The two notifications of the register
    form have fixed texts with code units above 255; they are constants. *)
Inductive Message :=
  | Text (s : string)
  | UserAlreadyRegistered
  | RegistrationFailedRetry.

(** What a handler asks of the notification library and of the router. *)
Inductive UiEffect :=
  | toast_success (message : Message)
  | toast_error (message : Message)
  | navigate (path : string).

Module LoginForm.

Definition handleSubmit (email password : string)
    (remote : axios.Outcome Credential) : M (list UiEffect) :=
  let payload_email := Js.trim email in
  if negb (Js.truthy payload_email) || negb (Js.truthy password) then ret []
  else
    do result <- authOps.login payload_email password remote;
    match result with
    | fulfilled payload =>
        ret [ toast_success
                (Text ("Welcome back, " +:+ user_name (cred_user payload) +:+ "!"));
              navigate "/contacts" ]
    | rejected payload =>
        ret [ toast_error
                (Text (Js.or_else (Some payload)
                         "Login failed. Please check your credentials.")) ]
    end.

End LoginForm.

Module RegisterForm.

(** The test the form applies to the payload of a rejected [register]. *)
Definition alreadyRegistered (errorMessage : string) : bool :=
  Js.includes errorMessage "400:" ||
  Js.includes errorMessage "409:" ||
  Js.includes (Js.toLowerCase errorMessage) "already" ||
  Js.includes (Js.toLowerCase errorMessage) "exist" ||
  Js.includes (Js.toLowerCase errorMessage) "in use" ||
  Js.includes (Js.toLowerCase errorMessage) "duplicate".

Definition handleSubmit (name email password : string)
    (remote : axios.Outcome Credential) : M (list UiEffect) :=
  let payload_name := Js.trim name in
  let payload_email := Js.trim email in
  if negb (Js.truthy payload_name) || negb (Js.truthy payload_email) ||
     negb (Js.truthy password)
  then ret []
  else
    do result <- authOps.register payload_name payload_email password remote;
    match result with
    | fulfilled _ =>
        ret [ toast_success (Text "Registration successful! Welcome!");
              navigate "/contacts" ]
    | rejected errorMessage =>
        if alreadyRegistered errorMessage
        then ret [ toast_error UserAlreadyRegistered ]
        else ret [ toast_error RegistrationFailedRetry ]
    end.

End RegisterForm.

Module UserMenu.

(** [await dispatch(logout()); navigate('/login')] *)
Definition handleLogout (remote : axios.Outcome unit) : M (list UiEffect) :=
  authOps.logout remote;;
  ret [ navigate "/login" ].

End UserMenu.

(** ** store/uiSlice.js and components/EditModal.jsx *)

Module uiSlice.

Record State := { editingContact : option Contact }.

Definition initialState : State := {| editingContact := None |}.

Inductive Action :=
  | setEditingContact (payload : Contact)
  | clearEditingContact.

Definition reducer (state : State) (action : Action) : State :=
  match action with
  | setEditingContact payload => {| editingContact := Some payload |}
  | clearEditingContact => {| editingContact := None |}
  end.

End uiSlice.

Module EditModal.

(** The submit handler of the modal, which is rendered only while a
    contact is being edited.  The [ui] slice is carried next to the
    application, whose store holds the other slices; its reducer and
    theirs ignore each other's actions. *)
Definition handleSubmit (remote : axios.Outcome Contact)
    (editingContact : Contact) (formData : FormData)
    (state : App * uiSlice.State) : App * uiSlice.State :=
  let payload :=
    {| form_name := Js.trim (form_name formData);
       form_phone := Js.trim (form_phone formData);
       form_email := Js.trim (form_email formData);
       form_avatar := Js.trim (form_avatar formData) |} in
  if negb (Js.truthy (form_name payload)) || negb (Js.truthy (form_phone payload))
  then state
  else
    let (_, app') :=
      contactsOps.updateContact (id editingContact) payload remote state.1 in
    (app', uiSlice.reducer state.2 uiSlice.clearEditingContact).

End EditModal.

(** ** More vocabulary *)

(** No two contacts of the collection share an id. *)
Definition uniqueIds (items : list Contact) : Prop := NoDup (id <$> items).





(** What a fulfilled action must bring for the ids to stay unique: a
    fetched list without repeated ids, a created contact with a new id, an
    updated contact with the id that was asked for. *)
Definition bringsUniqueIds (items : list Contact)
    (action : contactsSlice.Action) : Prop :=
  match action with
  | contactsSlice.fetchContacts_fulfilled payload => uniqueIds payload
  | contactsSlice.addContact_fulfilled payload => id payload ∉ id <$> items
  | contactsSlice.updateContact_fulfilled arg_id payload => id payload = arg_id
  | _ => True
  end.

(** The message of an error, or [fallback] when it is empty. *)
Definition message_or (error : axios.Error) (fallback : string) : string :=
  match axios.message error with
  | EmptyString => fallback
  | String c s => String c s
  end.

(** The contacts slice after a failed call: the collection of [before],
    the status [failed] and the error [text]; nothing else of the
    application differs from [before], apart from the requests sent. *)
Definition failedWith (before after : App) (text : string) : Prop :=
  contactsSlice.items (contacts (store after)) =
    contactsSlice.items (contacts (store before)) /\
  contactsSlice.status (contacts (store after)) = failed /\
  contactsSlice.error (contacts (store after)) = Some text /\
  auth (store after) = auth (store before) /\
  filters (store after) = filters (store before) /\
  localStorage after = localStorage before.

(** The contacts slice after a successful call: succeeded, no error. *)
Definition succeededCleanly (before after : App) : Prop :=
  contactsSlice.status (contacts (store after)) = succeeded /\
  contactsSlice.error (contacts (store after)) = None /\
  auth (store after) = auth (store before) /\
  filters (store after) = filters (store before) /\
  localStorage after = localStorage before.

(** * Properties *)

(** ** Strings *)

Lemma truthy_true_iff (s : string) : Js.truthy s = true <-> s <> "".
Proof. destruct s; simpl; split; congruence. Qed.

Lemma startsWith_spec (s sub : string) :
  Js.startsWith s sub = true <-> exists after, s = sub +:+ after.
Proof.
  revert s; induction sub as [|c sub IH]; intros s; simpl.
  - split; [intros _; exists s; reflexivity | intros _; now destruct s].
  - destruct s as [|d s]; simpl.
    + split; [discriminate | intros [after H]; discriminate].
    + rewrite andb_true_iff, Ascii.eqb_eq, IH. split.
      * intros [-> [after ->]]. now exists after.
      * intros [after H]. injection H as -> ->. split; [reflexivity|now exists after].
Qed.

Lemma includes_spec (s sub : string) :
  Js.includes s sub = true <-> Substring sub s.
Proof.
  unfold Substring. induction s as [|c s IH]; cbn [Js.includes].
  - rewrite orb_false_r, startsWith_spec. split.
    + intros [after H]. exists "", after. exact H.
    + intros [before [after H]]. destruct before; simpl in H.
      * exists after. exact H.
      * discriminate.
  - rewrite orb_true_iff, startsWith_spec, IH. split.
    + intros [[after H]|[before [after H]]].
      * exists "", after. exact H.
      * exists (String c before), after. simpl. now rewrite H.
    + intros [before [after H]]. destruct before as [|d before]; simpl in H.
      * left. exists after. exact H.
      * right. injection H as _ H. exists before, after. exact H.
Qed.

Lemma Substring_empty (s : string) : Substring "" s.
Proof. exists "", s. reflexivity. Qed.

(** ** Filtering *)

Lemma KeepsExactly_filter {A : Type} (P : A -> Prop) (p : A -> bool)
    (l : list A) :
  (forall x, p x = true <-> P x) -> KeepsExactly P l (List.filter p l).
Proof.
  intros Hp. induction l as [|x l IH]; simpl.
  - constructor.
  - destruct (p x) eqn:E.
    + apply keeps_cons; [now apply Hp | exact IH].
    + apply keeps_skip; [|exact IH].
      intros HP. apply Hp in HP. congruence.
Qed.

Lemma filter_idempotent {A : Type} (p : A -> bool) (l : list A) :
  List.filter p (List.filter p l) = List.filter p l.
Proof.
  induction l as [|x l IH]; simpl; [reflexivity|].
  destruct (p x) eqn:E; simpl; [rewrite E, IH|]; auto.
Qed.

Lemma matchesSearch_spec (search : string) (contact : Contact) :
  matchesSearch (Js.toLowerCase (Js.trim search)) contact = true <->
  matchesJoined search contact.
Proof.
  unfold matchesSearch, matchesJoined.
  assert (Js.or_else (email contact) "" = email_text contact) as ->.
  { unfold Js.or_else, email_text. destruct (email contact) as [[|c e]|]; reflexivity. }
  destruct (Js.toLowerCase (Js.trim search)) eqn:E; cbn [Js.truthy].
  - split; [intros _; apply Substring_empty | reflexivity].
  - apply includes_spec.
Qed.

Lemma matchesFilter_spec (filter : string) (contact : Contact) :
  matchesFilter filter contact = true <-> passesCategory filter contact.
Proof.
  unfold matchesFilter, passesCategory.
  rewrite !orb_true_iff, !andb_true_iff, !String.eqb_eq, truthy_true_iff.
  assert (Js.truthy_opt (email contact) = true <-> email_text contact <> "") as ->.
  { unfold Js.truthy_opt, email_text.
    destruct (email contact) as [e|]; [apply truthy_true_iff|].
    split; [discriminate | congruence]. }
  tauto.
Qed.

Lemma filteredView_keeps (items : list Contact) (search filter : string) :
  KeepsExactly
    (fun contact => matchesJoined search contact /\ passesCategory filter contact)
    items (filteredView items search filter).
Proof.
  apply KeepsExactly_filter. intros contact.
  rewrite andb_true_iff, matchesSearch_spec, matchesFilter_spec. tauto.
Qed.

(** ** The contacts thunks, evaluated *)

Lemma fetchContacts_resolve (data : list Contact) (app : App) :
  store (contactsOps.fetchContacts (axios.resolve data) app).2 =
  rootReducer
    (rootReducer (store app) (ContactsAction contactsSlice.fetchContacts_pending))
    (ContactsAction (contactsSlice.fetchContacts_fulfilled data)).
Proof. reflexivity. Qed.

Lemma addContact_resolve (contact : FormData) (data : Contact) (app : App) :
  store (contactsOps.addContact contact (axios.resolve data) app).2 =
  rootReducer
    (rootReducer (store app) (ContactsAction contactsSlice.addContact_pending))
    (ContactsAction (contactsSlice.addContact_fulfilled data)).
Proof. reflexivity. Qed.

Lemma updateContact_resolve (i : string) (updates : FormData) (data : Contact)
    (app : App) :
  store (contactsOps.updateContact i updates (axios.resolve data) app).2 =
  rootReducer
    (rootReducer (store app) (ContactsAction contactsSlice.updateContact_pending))
    (ContactsAction (contactsSlice.updateContact_fulfilled i data)).
Proof. reflexivity. Qed.

Lemma deleteContact_resolve (i : string) (app : App) :
  store (contactsOps.deleteContact i (axios.resolve tt) app).2 =
  rootReducer
    (rootReducer (store app) (ContactsAction contactsSlice.deleteContact_pending))
    (ContactsAction (contactsSlice.deleteContact_fulfilled i)).
Proof. reflexivity. Qed.

(** ** findIndex *)

Lemma findIndex_Some {A : Type} (p : A -> bool) (l : list A) (i : nat) :
  contactsSlice.findIndex p l = Some i ->
  (exists x, l !! i = Some x /\ p x = true) /\
  (forall j y, j < i -> l !! j = Some y -> p y = false).
Proof.
  revert i; induction l as [|x l IH]; intros i; simpl; [discriminate|].
  destruct (p x) eqn:E.
  - intros [= <-]. split; [exists x; auto | intros j y Hj; lia].
  - destruct (contactsSlice.findIndex p l) as [k|]; simpl; [|discriminate].
    intros [= <-]. destruct (IH k eq_refl) as [Hx Hmin]. split; [exact Hx|].
    intros [|j] y Hj; simpl.
    + intros [= <-]. exact E.
    + apply Hmin. lia.
Qed.

Lemma findIndex_None {A : Type} (p : A -> bool) (l : list A) :
  contactsSlice.findIndex p l = None <-> (forall x, x ∈ l -> p x = false).
Proof.
  induction l as [|x l IH]; simpl.
  - split; [intros _ x Hx; inversion Hx | reflexivity].
  - destruct (p x) eqn:E.
    + split; [discriminate|]. intros H. specialize (H x (list_elem_of_here _ _)). congruence.
    + destruct (contactsSlice.findIndex p l) as [k|]; simpl.
      * split; [discriminate|]. intros H.
        assert (Some k = None) by (apply IH; intros y Hy; apply H; now right).
        discriminate.
      * split; [|reflexivity]. intros _ y Hy.
        apply elem_of_cons in Hy as [->|Hy]; [exact E|].
        now apply IH.
Qed.

Lemma KeepsExactly_all {A : Type} (P : A -> Prop) (l kept : list A) :
  KeepsExactly P l kept -> forall x, x ∈ kept -> P x.
Proof.
  induction 1 as [|x l kept HP _ IH|x l kept _ _ IH]; intros y Hy.
  - inversion Hy.
  - apply elem_of_cons in Hy as [->|Hy]; auto.
  - auto.
Qed.

(** * The claims *)

(** ** Contacts store *)

(** C4.  After a successful [updateContact(id, updates)]: when some element
    of the collection has that id, the first such element is replaced, at
    its own index, by the object the server returned, the length is the
    same and every other position holds the element it held before; when no
    element has that id, the collection is the one it was. *)
Theorem updateContact_replaces_in_place
    (i : string) (updates : FormData) (data : Contact) (app : App) :
  let items := contactsSlice.items (contacts (store app)) in
  let items' :=
    contactsSlice.items
      (contacts (store (contactsOps.updateContact i updates
                          (axios.resolve data) app).2)) in
  ((exists c, c ∈ items /\ id c = i) ->
   exists (k : nat) (c : Contact),
     items !! k = Some c /\ id c = i /\
     (forall j c', j < k -> items !! j = Some c' -> id c' <> i) /\
     items' !! k = Some data /\
     length items' = length items /\
     (forall j, j <> k -> items' !! j = items !! j)) /\
  ((forall c, c ∈ items -> id c <> i) -> items' = items).
Proof.
  intros items items'. subst items'. rewrite updateContact_resolve.
  cbn [rootReducer contacts contactsSlice.reducer contactsSlice.items
       contactsSlice.pending].
  fold items.
  destruct (contactsSlice.findIndex (fun contact => String.eqb (id contact) i) items)
    as [k|] eqn:E.
  - apply findIndex_Some in E as [[c [Hk Hc]] Hmin].
    apply String.eqb_eq in Hc. split.
    + intros _. exists k, c. repeat split; auto.
      * intros j c' Hj Hj' Hid. apply (Hmin j c' Hj) in Hj'.
        apply String.eqb_neq in Hj'. contradiction.
      * apply list_lookup_insert_eq. eapply lookup_lt_Some; eauto.
      * apply length_insert.
      * intros j Hj. apply list_lookup_insert_ne. auto.
    + intros Hnone. exfalso. apply (Hnone c); [eapply list_elem_of_lookup_2; eauto | exact Hc].
  - split; [|reflexivity].
    intros [c [Hin Hc]]. exfalso.
    rewrite findIndex_None in E. specialize (E c Hin).
    apply String.eqb_neq in E. contradiction.
Qed.

(** C5.  A successful [fetchContacts] makes the collection the list the
    server returned, whatever it held before; a successful [addContact]
    after it puts the contact the server returned in front of that list.
    Fetching Ann (id 1) and then adding Bo (server id 2) gives Bo, Ann. *)
Theorem fetch_replaces_then_add_prepends
    (server : list Contact) (contact : FormData) (created : Contact)
    (app : App) :
  let app1 := (contactsOps.fetchContacts (axios.resolve server) app).2 in
  let app2 := (contactsOps.addContact contact (axios.resolve created) app1).2 in
  contactsSlice.items (contacts (store app1)) = server /\
  contactsSlice.items (contacts (store app2)) = created :: server /\
  (let ann := {| id := "1"; name := "Ann"; phone := "555";
                 email := None; avatar := None |} in
   let bo := {| id := "2"; name := "Bo"; phone := "222";
                email := None; avatar := None |} in
   let form := {| form_name := "Bo"; form_phone := "222";
                  form_email := ""; form_avatar := "" |} in
   let fetched := (contactsOps.fetchContacts (axios.resolve [ann]) app).2 in
   let added := (contactsOps.addContact form (axios.resolve bo) fetched).2 in
   contactsSlice.items (contacts (store added)) = [bo; ann]).
Proof.
  intros app1 app2. subst app2 app1. cbv zeta.
  rewrite !addContact_resolve, !fetchContacts_resolve.
  cbn. repeat split.
Qed.

(** C6.  After a successful [deleteContact(id)] no element of the
    collection has that id, and the collection is the former one with
    exactly the elements of a different id kept, in their order. *)
Theorem deleteContact_removes_by_id (i : string) (app : App) :
  let items := contactsSlice.items (contacts (store app)) in
  let items' :=
    contactsSlice.items
      (contacts (store (contactsOps.deleteContact i (axios.resolve tt) app).2)) in
  (forall c, c ∈ items' -> id c <> i) /\
  KeepsExactly (fun c => id c <> i) items items'.
Proof.
  intros items items'. subst items'. rewrite deleteContact_resolve.
  cbn [rootReducer contacts contactsSlice.reducer contactsSlice.items
       contactsSlice.pending].
  fold items.
  assert (KeepsExactly (fun c => id c <> i) items
            (List.filter (fun contact => negb (String.eqb (id contact) i)) items))
    as HK.
  { apply KeepsExactly_filter. intros c.
    rewrite negb_true_iff. apply String.eqb_neq. }
  split; [|exact HK]. apply (KeepsExactly_all _ _ _ HK).
Qed.

(** ** Derived filtering *)

(** C2, as stated, fails: for the search text "n5" and the filter "all",
    the contact named "ann" with phone "555" satisfies both predicates of
    the claim ("n5" occurs in "ann555"), but the selector drops it, since
    it searches "ann 555 ".  Every string here is in lower case already, so
    the comparison without regard to case plays no part. *)
Lemma filteredView_concatenation_counterexample :
  let ann := {| id := "1"; name := "ann"; phone := "555";
                email := None; avatar := None |} in
  filteredView [ann] "n5" "all" = [] /\
  ~ KeepsExactly
      (fun c => matchesConcatenation "n5" c /\ passesCategory "all" c)
      [ann] (filteredView [ann] "n5" "all").
Proof.
  intros ann. split; [reflexivity|].
  change (filteredView [ann] "n5" "all") with (@nil Contact).
  intros H. inversion H as [| |x l kept Hnot _]; subst.
  apply Hnot. split.
  - exists "an", "55". reflexivity.
  - left. reflexivity.
Qed.

(** C2, amended.  The selector keeps exactly the contacts that satisfy both
    predicates: the trimmed, lower-cased search text occurs in the
    lower-cased text made of the name, a space, the phone, a space and the
    email (the empty string for an absent email), which every contact
    satisfies when the search text is empty or only white space; and the
    category filter, which passes every contact for "all", the contacts
    with a non-empty email for "hasEmail" and those with a non-empty phone
    for "hasPhone".  Searching "ann" with "hasEmail" over Ann (empty email)
    and Anna (a@x.com) yields Anna alone. *)
Theorem selectFilteredContacts_keeps_exactly (state : RootState) :
  let search := filtersSlice.search (filters state) in
  let filter := filtersSlice.filter (filters state) in
  KeepsExactly
    (fun contact => matchesJoined search contact /\ passesCategory filter contact)
    (contactsSlice.items (contacts state))
    (selectFilteredContacts state) /\
  (forall contact, Js.trim search = "" -> matchesJoined search contact) /\
  (forall (id1 id2 phone1 phone2 : string) (avatar1 avatar2 : option string),
     let ann := {| id := id1; name := "Ann"; phone := phone1;
                   email := Some ""; avatar := avatar1 |} in
     let anna := {| id := id2; name := "Anna"; phone := phone2;
                    email := Some "a@x.com"; avatar := avatar2 |} in
     filteredView [ann; anna] "ann" "hasEmail" = [anna]).
Proof.
  intros search filter. split; [|split].
  - apply filteredView_keeps.
  - intros contact E. unfold matchesJoined. rewrite E. apply Substring_empty.
  - intros. reflexivity.
Qed.

(** C9.  Filtering is idempotent: the selector applied with the same query
    to its own result returns that result. *)
Theorem filteredView_idempotent (items : list Contact) (search filter : string) :
  filteredView (filteredView items search filter) search filter =
  filteredView items search filter /\
  (forall state : RootState,
     filtersSlice.search (filters state) = search ->
     filtersSlice.filter (filters state) = filter ->
     contactsSlice.items (contacts state) = filteredView items search filter ->
     selectFilteredContacts state = filteredView items search filter).
Proof.
  split; [apply filter_idempotent|].
  intros state Hs Hf Hi. unfold selectFilteredContacts.
  rewrite Hs, Hf, Hi. apply filter_idempotent.
Qed.

(** ** HTTP adapter *)

Lemma send_evaluated {A : Type} (m : Method) (path : string) (b : Body)
    (remote : axios.Outcome A) (app : App) :
  api.send m path b remote app =
  (remote,
   {| store := store app;
      localStorage :=
        match remote with
        | axios.resolve _ => localStorage app
        | axios.reject error =>
            if bool_decide (axios.response_status error = Some 401%N)
            then delete "token" (localStorage app) else localStorage app
        end;
      network :=
        {| method := m; baseURL := api.api_baseURL; url := path;
           authorization := bearer (localStorage app !! "token");
           body := b |} :: network app |}).
Proof.
  unfold api.send, api.request_interceptor, api.response_rejected,
    api.response_fulfilled, bind, getItem, transmit, removeItem, ret, bearer.
  destruct (localStorage app !! "token") as [t|]; [destruct (Js.truthy t)|];
    destruct remote as [data|error];
    try destruct (bool_decide (axios.response_status error = Some 401%N));
    reflexivity.
Qed.

Lemma send_reject {A : Type} (m : Method) (path : string) (b : Body)
    (error : axios.Error) (app : App) :
  let after := api.send (A := A) m path b (axios.reject error) app in
  after.1 = axios.reject error /\
  store after.2 = store app /\
  localStorage after.2 =
    (if bool_decide (axios.response_status error = Some 401%N)
     then delete "token" (localStorage app) else localStorage app).
Proof. cbv zeta. rewrite send_evaluated. repeat split. Qed.

(** C7.  When the server answers a call through the adapter with an error,
    the caller receives that very error, status code and message included;
    the store, hence the session state, is the one it was; and the durable
    storage has lost the credential when the status is 401 and is the one
    it was for every other error. *)
Theorem adapter_clears_credential_on_401 {A : Type}
    (m : Method) (path : string) (b : Body) (error : axios.Error) (app : App) :
  let after := api.send (A := A) m path b (axios.reject error) app in
  after.1 = axios.reject error /\
  store after.2 = store app /\
  (if bool_decide (axios.response_status error = Some 401%N)
   then localStorage after.2 = delete "token" (localStorage app) /\
        localStorage after.2 !! "token" = None
   else localStorage after.2 = localStorage app) /\
  (api.response_rejected (A := A) error app).1 = axios.reject error /\
  store (api.response_rejected (A := A) error app).2 = store app.
Proof.
  intros after. subst after.
  destruct (send_reject (A := A) m path b error app) as (H1 & H2 & H3).
  split; [exact H1|]. split; [exact H2|]. split.
  - rewrite H3. destruct (bool_decide (axios.response_status error = Some 401%N)).
    + split; [reflexivity | apply lookup_delete_eq].
    + reflexivity.
  - unfold api.response_rejected, bind, removeItem, ret.
    destruct (bool_decide (axios.response_status error = Some 401%N)); split; reflexivity.
Qed.

(** ** Session store *)

Lemma logout_evaluated (remote : axios.Outcome unit) (app : App) :
  let after := authOps.logout remote app in
  after.1 = fulfilled tt /\
  localStorage after.2 !! "token" = None /\
  auth (store after.2) =
    authSlice.reducer
      (authSlice.reducer (auth (store app)) authSlice.logout_pending)
      authSlice.logout_fulfilled.
Proof.
  cbv zeta.
  unfold authOps.logout, createAsyncThunk, authOps.logout_payloadCreator,
    bind, dispatch.
  rewrite send_evaluated. unfold removeItem, ret.
  destruct remote as [[]|error]; cbn [store localStorage fst snd rootReducer auth];
    repeat split; apply lookup_delete_eq.
Qed.

(** C3.  Whatever the remote outcome of the logout call (a response, an
    error response, no response at all), the dispatched [logout] settles
    fulfilled, the durable storage holds no credential, and the session is
    anonymous with no error. *)
Theorem logout_always_succeeds (remote : axios.Outcome unit) (app : App) :
  let after := authOps.logout remote app in
  after.1 = fulfilled tt /\
  localStorage after.2 !! "token" = None /\
  authSlice.user (auth (store after.2)) = None /\
  authSlice.token (auth (store after.2)) = None /\
  authSlice.isLoggedIn (auth (store after.2)) = false /\
  authSlice.error (auth (store after.2)) = None /\
  (forall state : authSlice.State,
     let state' := authSlice.reducer state authSlice.logout_rejected in
     anonymous state' /\ authSlice.error state' = None).
Proof.
  intros after. subst after.
  destruct (logout_evaluated remote app) as (H1 & H2 & H3).
  rewrite H3. repeat split; assumption.
Qed.

Lemma or_else_chain (error : axios.Error) (fallback : string) :
  Js.or_else
    (Some (Js.or_else (axios.response_message error) (axios.message error)))
    fallback = failure_text error fallback.
Proof.
  unfold failure_text, axios.response_message, Js.or_else.
  destruct error as [msg [[st [[|c s]|]]|]]; destruct msg; reflexivity.
Qed.

Lemma failure_text_nonempty (error : axios.Error) (fallback : string) :
  fallback <> "" -> failure_text error fallback <> "".
Proof.
  intros Hf. unfold failure_text.
  destruct error as [msg [[st [[|c s]|]]|]]; destruct msg; simpl; congruence.
Qed.

Lemma register_reject_evaluated (name email password : string)
    (error : axios.Error) (app : App) :
  let after := authOps.register name email password (axios.reject error) app in
  let message := failure_text error "Registration failed" in
  let errorMessage :=
    match axios.response_status error with
    | Some code =>
        if ((code =? 400) || (code =? 409))%N
        then pretty code +:+ ":" +:+ message else message
    | None => message
    end in
  after.1 = rejected errorMessage /\
  auth (store after.2) =
    authSlice.reducer
      (authSlice.reducer (auth (store app)) authSlice.register_pending)
      (authSlice.register_rejected (Some errorMessage)) /\
  localStorage after.2 =
    (if bool_decide (axios.response_status error = Some 401%N)
     then delete "token" (localStorage app) else localStorage app).
Proof.
  cbv zeta. rewrite <- or_else_chain.
  unfold authOps.register, createAsyncThunk, authOps.register_payloadCreator,
    bind, dispatch.
  rewrite send_evaluated. repeat split.
Qed.

(** C8.  A register attempt that the server rejects with status 400 or 409
    settles rejected; the session is anonymous; the error of the session is
    the status code, a colon and the text of the failure ("409:..." for a
    duplicate account); and the durable storage is the one it was, so no
    credential was written. *)
Theorem register_rejected_400_409
    (name email password : string) (error : axios.Error)
    (response : axios.Response) (app : App) :
  axios.response error = Some response ->
  axios.status response = 400%N \/ axios.status response = 409%N ->
  let after := authOps.register name email password (axios.reject error) app in
  let message := failure_text error "Registration failed" in
  let code := if (axios.status response =? 409)%N then "409" else "400" in
  message <> "" /\
  after.1 = rejected (code +:+ ":" +:+ message) /\
  authSlice.status (auth (store after.2)) = failed /\
  authSlice.error (auth (store after.2)) = Some (code +:+ ":" +:+ message) /\
  anonymous (auth (store after.2)) /\
  localStorage after.2 = localStorage app.
Proof.
  intros Hresp Hstatus after message code. subst after.
  destruct (register_reject_evaluated name email password error app)
    as (H1 & H2 & H3).
  assert (axios.response_status error = Some (axios.status response)) as Hs.
  { unfold axios.response_status. rewrite Hresp. reflexivity. }
  rewrite Hs in H1, H2, H3.
  assert (message <> "") as Hm by (apply failure_text_nonempty; discriminate).
  fold message in H1, H2.
  split; [exact Hm|].
  rewrite H1, H2, H3. subst code.
  destruct Hstatus as [-> | ->]; repeat split; reflexivity.
Qed.

Lemma refreshUser_evaluated (remote : axios.Outcome User) (app : App) :
  let after := authOps.refreshUser remote app in
  let pending :=
    authSlice.reducer (auth (store app)) authSlice.refreshUser_pending in
  if Js.truthy_opt (localStorage app !! "token") then
    match remote with
    | axios.resolve data =>
        after.1 = fulfilled data /\
        auth (store after.2) =
          authSlice.reducer pending (authSlice.refreshUser_fulfilled data)
    | axios.reject error =>
        let message := failure_text error "Session expired" in
        after.1 = rejected message /\
        auth (store after.2) =
          authSlice.reducer pending
            (authSlice.refreshUser_rejected (Some message)) /\
        localStorage after.2 !! "token" = None
    end
  else
    after.1 = rejected "Token not found" /\
    auth (store after.2) =
      authSlice.reducer pending
        (authSlice.refreshUser_rejected (Some "Token not found")) /\
    localStorage after.2 = localStorage app /\
    network after.2 = network app.
Proof.
  cbv zeta.
  unfold authOps.refreshUser, createAsyncThunk,
    authOps.refreshUser_payloadCreator, bind, dispatch, getItem.
  cbn [store localStorage network fst snd].
  destruct (Js.truthy_opt (localStorage app !! "token")); cbn [negb].
  - rewrite send_evaluated. destruct remote as [data|error].
    + repeat split.
    + rewrite <- or_else_chain. unfold removeItem, ret.
      cbn [store localStorage network fst snd rootReducer auth].
      repeat split. apply lookup_delete_eq.
  - repeat split.
Qed.

(** C10.  Whenever the dispatched [refreshUser] settles rejected, with any
    payload, the error of the session is the literal "Session expired",
    the user and the token are cleared and the session is logged out.  That
    covers the rejection for a missing credential, whose payload is
    "Token not found", and the rejection after a failed verification, whose
    payload is the text of that failure. *)
Theorem refreshUser_rejected_session_expired
    (remote : axios.Outcome User) (app : App) :
  let after := authOps.refreshUser remote app in
  (forall payload : string,
     after.1 = rejected payload ->
     authSlice.error (auth (store after.2)) = Some "Session expired" /\
     anonymous (auth (store after.2))) /\
  (Js.truthy_opt (localStorage app !! "token") = false ->
   after.1 = rejected "Token not found") /\
  (forall error : axios.Error,
     Js.truthy_opt (localStorage app !! "token") = true ->
     remote = axios.reject error ->
     after.1 = rejected (failure_text error "Session expired")).
Proof.
  intros after. subst after.
  pose proof (refreshUser_evaluated remote app) as H. cbv zeta in H.
  destruct (Js.truthy_opt (localStorage app !! "token")).
  - destruct remote as [data|error].
    + destruct H as [H1 H2]. split; [|split].
      * intros payload Hp. rewrite H1 in Hp. discriminate.
      * discriminate.
      * intros error _ [=].
    + destruct H as (H1 & H2 & H3). split; [|split].
      * intros payload _. rewrite H2. repeat split.
      * discriminate.
      * intros error' _ [= <-]. exact H1.
  - destruct H as (H1 & H2 & H3 & H4). split; [|split].
    + intros payload _. rewrite H2. repeat split.
    + intros _. exact H1.
    + discriminate.
Qed.

(** ** Contact form *)

Lemma handleSubmit_rejects (onSubmit : FormData -> M unit)
    (formData : FormData) (app : App) :
  Js.trim (form_name formData) = "" \/ Js.trim (form_phone formData) = "" ->
  ContactForm.handleSubmit onSubmit formData app = (formData, app).
Proof.
  intros H. unfold ContactForm.handleSubmit. cbn [form_name form_phone].
  destruct H as [H|H]; rewrite H; cbn [Js.truthy negb orb].
  - reflexivity.
  - rewrite orb_true_r. reflexivity.
Qed.

(** C1.  When the name is empty or the trimmed phone is empty, submitting
    the contact form sends no request and changes neither the collection
    nor anything else: the submit handler returns before it calls
    [onSubmit], so [addContact] is never dispatched. *)
Theorem add_rejected_locally
    (remote : axios.Outcome Contact) (formData : FormData) (app : App) :
  form_name formData = "" \/ Js.trim (form_phone formData) = "" ->
  let after := submitContactForm remote formData app in
  network after.2 = network app /\
  contactsSlice.items (contacts (store after.2)) =
    contactsSlice.items (contacts (store app)) /\
  after.2 = app /\
  (forall onSubmit : FormData -> M unit,
     ContactForm.handleSubmit onSubmit formData app = (formData, app)).
Proof.
  intros H after.
  assert (Js.trim (form_name formData) = "" \/
          Js.trim (form_phone formData) = "") as H'.
  { destruct H as [H|H]; [left; rewrite H; reflexivity | right; exact H]. }
  subst after. unfold submitContactForm.
  rewrite (handleSubmit_rejects _ _ _ H').
  repeat split. intros onSubmit. apply handleSubmit_rejects. exact H'.
Qed.

(** * Instances *)

(** C1 at a concrete input: a form with a phone number but no name. *)
Lemma add_rejected_locally_witness :
  let formData := {| form_name := ""; form_phone := "555";
                     form_email := "ann@x.com"; form_avatar := "" |} in
  let created := {| id := "3"; name := ""; phone := "555";
                    email := Some "ann@x.com"; avatar := None |} in
  (form_name formData = "" \/ Js.trim (form_phone formData) = "") /\
  network (submitContactForm (axios.resolve created) formData aliApp).2 = [] /\
  (submitContactForm (axios.resolve created) formData aliApp).2 = aliApp.
Proof.
  intros formData created.
  assert (form_name formData = "" \/ Js.trim (form_phone formData) = "") as H
    by (left; reflexivity).
  split; [exact H|].
  pose proof (add_rejected_locally (axios.resolve created) formData aliApp H)
    as (H1 & _ & H3 & _).
  split; [exact H1 | exact H3].
Defined.

(** A valid form, for contrast: one request leaves and the created contact
    comes first. *)
Example submit_valid_form :
  let formData := {| form_name := " Cy "; form_phone := "333 ";
                     form_email := ""; form_avatar := "" |} in
  let created := {| id := "3"; name := "Cy"; phone := "333";
                    email := Some ""; avatar := Some "" |} in
  let after := submitContactForm (axios.resolve created) formData aliApp in
  after.1 = ContactForm.emptyContact /\
  network after.2 =
    [ {| method := POST; baseURL := contactsOps.contacts_baseURL; url := "/";
         authorization := None;
         body := ContactBody {| form_name := "Cy"; form_phone := "333";
                                form_email := ""; form_avatar := "" |} |} ] /\
  id <$> contactsSlice.items (contacts (store after.2)) = ["3"; "1"; "2"].
Proof. repeat split. Qed.

(** C4 at a concrete input: the second of two contacts is updated. *)
Lemma updateContact_replaces_in_place_witness :
  let updates := {| form_name := "Bo B"; form_phone := "222";
                    form_email := "bo@x.com"; form_avatar := "" |} in
  let data := {| id := "2"; name := "Bo B"; phone := "222";
                 email := Some "bo@x.com"; avatar := None |} in
  let after := (contactsOps.updateContact "2" updates (axios.resolve data) aliApp).2 in
  exists (k : nat) (c : Contact),
    contactsSlice.items (contacts (store aliApp)) !! k = Some c /\
    contactsSlice.items (contacts (store after)) !! k = Some data.
Proof.
  intros updates data after.
  destruct (updateContact_replaces_in_place "2" updates data aliApp) as [H _].
  destruct H as (k & c & Hk & _ & _ & Hk' & _).
  - exists {| id := "2"; name := "Bo"; phone := "222";
              email := Some "bo@x.com"; avatar := None |}.
    split; [|reflexivity].
    right. left.
  - exists k, c. split; assumption.
Defined.

Example updateContact_example :
  let data := {| id := "2"; name := "Bo B"; phone := "222";
                 email := None; avatar := None |} in
  name <$> contactsSlice.items
    (contactsSlice.reducer (contacts (store aliApp))
       (contactsSlice.updateContact_fulfilled "2" data)) = ["Ann"; "Bo B"] /\
  name <$> contactsSlice.items
    (contactsSlice.reducer (contacts (store aliApp))
       (contactsSlice.updateContact_fulfilled "7" data)) = ["Ann"; "Bo"].
Proof. split; reflexivity. Qed.

(** C8 at a concrete input: the server reports the address as used. *)
Lemma register_rejected_400_409_witness :
  let after := authOps.register "Ali" "ali@x.com" "secret12"
                 (axios.reject conflict) freshApp in
  after.1 = rejected "409:User already exists" /\
  authSlice.error (auth (store after.2)) = Some "409:User already exists" /\
  anonymous (auth (store after.2)) /\
  localStorage after.2 = ∅.
Proof.
  intros after.
  pose proof (register_rejected_400_409 "Ali" "ali@x.com" "secret12" conflict
                {| axios.status := 409;
                   axios.data_message := Some "User already exists" |}
                freshApp eq_refl (or_intror eq_refl))
    as (_ & H1 & _ & H2 & H3 & H4).
  repeat split; first [exact H1 | exact H2 | apply H3 | exact H4].
Defined.

(** C9 at a concrete input. *)
Lemma filteredView_idempotent_witness :
  let items := contactsSlice.items (contacts (store aliApp)) in
  filteredView (filteredView items " B" "hasEmail") " B" "hasEmail" =
  filteredView items " B" "hasEmail" /\
  id <$> filteredView items " B" "hasEmail" = ["2"].
Proof.
  intros items. split.
  - exact (proj1 (filteredView_idempotent items " B" "hasEmail")).
  - reflexivity.
Defined.

(** C10 at a concrete input: nothing is stored, the payload of the
    rejection is "Token not found", the error of the session is not. *)
Lemma refreshUser_rejected_session_expired_witness :
  let after := authOps.refreshUser (axios.reject offline) freshApp in
  after.1 = rejected "Token not found" /\
  authSlice.error (auth (store after.2)) = Some "Session expired" /\
  anonymous (auth (store after.2)).
Proof.
  intros after.
  destruct (refreshUser_rejected_session_expired (axios.reject offline) freshApp)
    as (Hany & Hnone & _).
  assert (after.1 = rejected "Token not found") as H by (apply Hnone; reflexivity).
  split; [exact H|]. exact (Hany "Token not found" H).
Defined.

Example refreshUser_unauthorized :
  let after := authOps.refreshUser (axios.reject unauthorized) aliApp in
  after.1 = rejected "Please authenticate" /\
  authSlice.error (auth (store after.2)) = Some "Session expired" /\
  localStorage after.2 !! "token" = None.
Proof. vm_compute. repeat split. Qed.

Example logout_offline :
  let after := authOps.logout (axios.reject offline) aliApp in
  after.1 = fulfilled tt /\
  localStorage after.2 !! "token" = None /\
  auth (store after.2) = authSlice.initialState /\
  authorization <$> network after.2 = [Some "Bearer jwt-1"].
Proof. vm_compute. repeat split. Qed.

Example trim_example : Js.trim "  Ann Lee 	" = "Ann Lee".
Proof. reflexivity. Qed.

Example toLowerCase_example : Js.toLowerCase "Ann LEE 555" = "ann lee 555".
Proof. reflexivity. Qed.

Example includes_example :
  Js.includes "ann 555 " "n 5" = true /\ Js.includes "ann 555 " "n5" = false.
Proof. split; reflexivity. Qed.

(** * Further properties of the code *)

(** ** The auth thunks *)

Lemma login_resolve_evaluated (email password : string) (data : Credential)
    (app : App) :
  authOps.login email password (axios.resolve data) app =
  (fulfilled data,
   {| store :=
        rootReducer
          (rootReducer (store app) (AuthAction authSlice.login_pending))
          (AuthAction (authSlice.login_fulfilled data));
      localStorage := <["token" := cred_token data]> (localStorage app);
      network :=
        {| method := POST; baseURL := api.api_baseURL; url := "/users/login";
           authorization := bearer (localStorage app !! "token");
           body := LoginBody email password |} :: network app |}).
Proof.
  unfold authOps.login, createAsyncThunk, authOps.login_payloadCreator,
    bind, dispatch.
  rewrite send_evaluated. reflexivity.
Qed.

Lemma register_resolve_evaluated (name email password : string)
    (data : Credential) (app : App) :
  authOps.register name email password (axios.resolve data) app =
  (fulfilled data,
   {| store :=
        rootReducer
          (rootReducer (store app) (AuthAction authSlice.register_pending))
          (AuthAction (authSlice.register_fulfilled data));
      localStorage := <["token" := cred_token data]> (localStorage app);
      network :=
        {| method := POST; baseURL := api.api_baseURL; url := "/users/signup";
           authorization := bearer (localStorage app !! "token");
           body := UserBody name email password |} :: network app |}).
Proof.
  unfold authOps.register, createAsyncThunk, authOps.register_payloadCreator,
    bind, dispatch.
  rewrite send_evaluated. reflexivity.
Qed.

Lemma login_reject_evaluated (email password : string) (error : axios.Error)
    (app : App) :
  authOps.login email password (axios.reject error) app =
  (rejected (failure_text error "Login failed"),
   {| store :=
        rootReducer
          (rootReducer (store app) (AuthAction authSlice.login_pending))
          (AuthAction
             (authSlice.login_rejected
                (Some (failure_text error "Login failed"))));
      localStorage :=
        (if bool_decide (axios.response_status error = Some 401%N)
         then delete "token" (localStorage app) else localStorage app);
      network :=
        {| method := POST; baseURL := api.api_baseURL; url := "/users/login";
           authorization := bearer (localStorage app !! "token");
           body := LoginBody email password |} :: network app |}).
Proof.
  rewrite <- or_else_chain.
  unfold authOps.login, createAsyncThunk, authOps.login_payloadCreator,
    bind, dispatch.
  rewrite send_evaluated. reflexivity.
Qed.

Lemma logout_full_evaluated (remote : axios.Outcome unit) (app : App) :
  authOps.logout remote app =
  (fulfilled tt,
   {| store :=
        rootReducer
          (rootReducer (store app) (AuthAction authSlice.logout_pending))
          (AuthAction authSlice.logout_fulfilled);
      localStorage := delete "token" (localStorage app);
      network :=
        {| method := POST; baseURL := api.api_baseURL; url := "/users/logout";
           authorization := bearer (localStorage app !! "token");
           body := NoBody |} :: network app |}).
Proof.
  unfold authOps.logout, createAsyncThunk, authOps.logout_payloadCreator,
    bind, dispatch.
  rewrite send_evaluated. unfold removeItem, ret.
  destruct remote as [[]|error]; cbn [store localStorage network fst snd];
    [reflexivity|].
  destruct (bool_decide (axios.response_status error = Some 401%N));
    [|reflexivity].
  rewrite delete_delete_eq. reflexivity.
Qed.

(** X1.  A login or a signup the server accepts settles fulfilled with the
    server's data, stores the token under the key "token", and leaves the
    session with the user and the token of the response, logged in,
    succeeded and without error; the contacts are not touched. *)
Theorem login_and_register_success_authenticate
    (name email password : string) (data : Credential) (app : App) :
  let authenticated :=
    {| authSlice.user := Some (cred_user data);
       authSlice.token := Some (cred_token data);
       authSlice.isLoggedIn := true;
       authSlice.isRefreshing := authSlice.isRefreshing (auth (store app));
       authSlice.status := succeeded;
       authSlice.error := None |} in
  let logged := authOps.login email password (axios.resolve data) app in
  let signed := authOps.register name email password (axios.resolve data) app in
  (logged.1 = fulfilled data /\
   localStorage logged.2 !! "token" = Some (cred_token data) /\
   auth (store logged.2) = authenticated /\
   contacts (store logged.2) = contacts (store app)) /\
  (signed.1 = fulfilled data /\
   localStorage signed.2 !! "token" = Some (cred_token data) /\
   auth (store signed.2) = authenticated /\
   contacts (store signed.2) = contacts (store app)).
Proof.
  cbv zeta. rewrite login_resolve_evaluated, register_resolve_evaluated.
  cbn [fst snd store localStorage auth contacts rootReducer].
  repeat split; apply lookup_insert_eq.
Qed.

(** X2.  A login the server refuses, or that gets no response, settles
    rejected with the text of the failure; the session is anonymous and
    failed, its error is that text, which is never empty; and no token is
    written: a token found in the storage afterwards was there before. *)
Theorem login_failure_stores_nothing
    (email password : string) (error : axios.Error) (app : App) :
  let after := authOps.login email password (axios.reject error) app in
  let text := failure_text error "Login failed" in
  text <> "" /\
  after.1 = rejected text /\
  authSlice.error (auth (store after.2)) = Some text /\
  authSlice.status (auth (store after.2)) = failed /\
  anonymous (auth (store after.2)) /\
  (forall t, localStorage after.2 !! "token" = Some t ->
             localStorage app !! "token" = Some t).
Proof.
  cbv zeta. rewrite login_reject_evaluated.
  cbn [fst snd store localStorage auth rootReducer].
  assert (failure_text error "Login failed" <> "") as Hne
    by (apply failure_text_nonempty; discriminate).
  split; [exact Hne|]. split; [reflexivity|].
  split.
  { cbn [authSlice.reducer authSlice.error Js.or_else].
    destruct (failure_text error "Login failed"); [contradiction|reflexivity]. }
  split; [reflexivity|]. split; [repeat split|].
  intros t. destruct (bool_decide (axios.response_status error = Some 401%N)).
  - rewrite lookup_delete_eq. discriminate.
  - auto.
Qed.

Lemma truthy_opt_Some (stored : option string) (t : string) :
  stored = Some t -> t <> "" -> Js.truthy_opt stored = true.
Proof. intros -> Ht. destruct t; [contradiction | reflexivity]. Qed.

Lemma bearer_Some (stored : option string) (t : string) :
  stored = Some t -> t <> "" -> bearer stored = Some ("Bearer " +:+ t).
Proof. intros -> Ht. destruct t; [contradiction | reflexivity]. Qed.

Lemma bearer_not_truthy (stored : option string) :
  Js.truthy_opt stored = false -> bearer stored = None.
Proof. destruct stored as [[|c t]|]; simpl; congruence. Qed.

Lemma refreshUser_resolve_evaluated (data : User) (app : App) :
  Js.truthy_opt (localStorage app !! "token") = true ->
  authOps.refreshUser (axios.resolve data) app =
  (fulfilled data,
   {| store :=
        rootReducer
          (rootReducer (store app) (AuthAction authSlice.refreshUser_pending))
          (AuthAction (authSlice.refreshUser_fulfilled data));
      localStorage := localStorage app;
      network :=
        {| method := GET; baseURL := api.api_baseURL; url := "/users/current";
           authorization := bearer (localStorage app !! "token");
           body := NoBody |} :: network app |}).
Proof.
  intros H.
  unfold authOps.refreshUser, createAsyncThunk,
    authOps.refreshUser_payloadCreator, bind, dispatch, getItem.
  cbn [store localStorage network fst snd]. rewrite H. cbn [negb].
  rewrite send_evaluated. reflexivity.
Qed.

Lemma refreshUser_reject_evaluated (error : axios.Error) (app : App) :
  Js.truthy_opt (localStorage app !! "token") = true ->
  authOps.refreshUser (axios.reject error) app =
  (rejected (failure_text error "Session expired"),
   {| store :=
        rootReducer
          (rootReducer (store app) (AuthAction authSlice.refreshUser_pending))
          (AuthAction
             (authSlice.refreshUser_rejected
                (Some (failure_text error "Session expired"))));
      localStorage := delete "token" (localStorage app);
      network :=
        {| method := GET; baseURL := api.api_baseURL; url := "/users/current";
           authorization := bearer (localStorage app !! "token");
           body := NoBody |} :: network app |}).
Proof.
  intros H. rewrite <- or_else_chain.
  unfold authOps.refreshUser, createAsyncThunk,
    authOps.refreshUser_payloadCreator, bind, dispatch, getItem.
  cbn [store localStorage network fst snd]. rewrite H. cbn [negb].
  rewrite send_evaluated. unfold removeItem, ret.
  cbn [store localStorage network fst snd].
  destruct (bool_decide (axios.response_status error = Some 401%N));
    [rewrite delete_delete_eq|]; reflexivity.
Qed.

Lemma refreshUser_no_token_evaluated (remote : axios.Outcome User) (app : App) :
  Js.truthy_opt (localStorage app !! "token") = false ->
  authOps.refreshUser remote app =
  (rejected "Token not found",
   {| store :=
        rootReducer
          (rootReducer (store app) (AuthAction authSlice.refreshUser_pending))
          (AuthAction (authSlice.refreshUser_rejected (Some "Token not found")));
      localStorage := localStorage app;
      network := network app |}).
Proof.
  intros H.
  unfold authOps.refreshUser, createAsyncThunk,
    authOps.refreshUser_payloadCreator, bind, dispatch, getItem.
  cbn [store localStorage network fst snd]. rewrite H. reflexivity.
Qed.

(** X3.  With a non-empty token in the storage and a server that confirms
    it, [refreshUser] settles fulfilled; the session holds the user the
    server returned and is logged in, not refreshing, succeeded and without
    error, while its token is the one it held; the storage is unchanged;
    and the one request sent is GET /users/current carrying the stored
    token as a bearer credential. *)
Theorem refreshUser_success_restores_user
    (t : string) (data : User) (app : App) :
  localStorage app !! "token" = Some t ->
  t <> "" ->
  let after := authOps.refreshUser (axios.resolve data) app in
  after.1 = fulfilled data /\
  auth (store after.2) =
    {| authSlice.user := Some data;
       authSlice.token := authSlice.token (auth (store app));
       authSlice.isLoggedIn := true;
       authSlice.isRefreshing := false;
       authSlice.status := succeeded;
       authSlice.error := None |} /\
  localStorage after.2 = localStorage app /\
  network after.2 =
    {| method := GET; baseURL := api.api_baseURL; url := "/users/current";
       authorization := Some ("Bearer " +:+ t); body := NoBody |}
    :: network app.
Proof.
  intros Ht Hne. cbv zeta.
  rewrite refreshUser_resolve_evaluated by (eapply truthy_opt_Some; eauto).
  cbn [fst snd store localStorage network auth rootReducer].
  rewrite (bearer_Some _ _ Ht Hne). repeat split.
Qed.

(** X4.  However [refreshUser] fails, the storage holds no usable token
    afterwards; and when it held none to begin with, the failure is local:
    no request is sent and the storage is the one it was. *)
Theorem refreshUser_failure_leaves_no_token
    (remote : axios.Outcome User) (app : App) (payload : string) :
  (authOps.refreshUser remote app).1 = rejected payload ->
  let after := (authOps.refreshUser remote app).2 in
  Js.truthy_opt (localStorage after !! "token") = false /\
  (Js.truthy_opt (localStorage app !! "token") = false ->
   network after = network app /\ localStorage after = localStorage app).
Proof.
  intros Hrej. cbv zeta.
  destruct (Js.truthy_opt (localStorage app !! "token")) eqn:E.
  - destruct remote as [data|error].
    + rewrite refreshUser_resolve_evaluated in Hrej by exact E. discriminate.
    + rewrite refreshUser_reject_evaluated by exact E.
      cbn [snd localStorage]. rewrite lookup_delete_eq.
      split; [reflexivity | discriminate].
  - rewrite refreshUser_no_token_evaluated by exact E.
    cbn [snd localStorage network]. split; [exact E | auto].
Qed.

(** ** The start of the application *)

(** X5.  Started without a usable token in the storage, the application
    does nothing: no action is dispatched and no request is sent. *)
Theorem main_without_token_does_nothing
    (remote : axios.Outcome User) (app : App) :
  Js.truthy_opt (localStorage app !! "token") = false ->
  main remote app = (tt, app).
Proof.
  intros H. unfold main, bind, getItem. rewrite H. reflexivity.
Qed.

(** X6.  Started with a non-empty token in the storage: when the server
    confirms it, the session ends logged in with the stored token and the
    user the server returned, and the storage is unchanged; when the
    verification fails in any way, the session ends anonymous with the
    error "Session expired" and the token is gone from the storage.  In
    both cases the session is no longer refreshing. *)
Theorem main_with_token_restores_or_expires
    (t : string) (remote : axios.Outcome User) (app : App) :
  localStorage app !! "token" = Some t ->
  t <> "" ->
  let after := (main remote app).2 in
  authSlice.isRefreshing (auth (store after)) = false /\
  match remote with
  | axios.resolve data =>
      auth (store after) =
        {| authSlice.user := Some data;
           authSlice.token := Some t;
           authSlice.isLoggedIn := true;
           authSlice.isRefreshing := false;
           authSlice.status := succeeded;
           authSlice.error := None |} /\
      localStorage after = localStorage app
  | axios.reject error =>
      anonymous (auth (store after)) /\
      authSlice.error (auth (store after)) = Some "Session expired" /\
      localStorage after !! "token" = None
  end.
Proof.
  intros Ht Hne. cbv zeta.
  pose proof (truthy_opt_Some _ _ Ht Hne) as Htruthy.
  unfold main, bind, getItem, dispatch. rewrite Htruthy.
  destruct remote as [data|error].
  - rewrite refreshUser_resolve_evaluated by exact Htruthy.
    cbn [fst snd store localStorage auth rootReducer].
    cbn [authSlice.reducer]. rewrite Ht.
    assert (Js.truthy_opt (Some t) = true) as -> by (rewrite <- Ht; exact Htruthy).
    repeat split.
  - rewrite refreshUser_reject_evaluated by exact Htruthy.
    cbn [fst snd store localStorage auth rootReducer].
    repeat split. apply lookup_delete_eq.
Qed.

(** ** The session invariant *)






(** ** The credential on later requests *)

(** X8.  After a login that returned a non-empty token, the next call
    through the adapter, whatever it is, carries that token as a bearer
    credential. *)
Theorem request_after_login_carries_token {A : Type}
    (email password : string) (data : Credential) (app : App)
    (m : Method) (path : string) (b : Body) (remote : axios.Outcome A) :
  cred_token data <> "" ->
  let logged := (authOps.login email password (axios.resolve data) app).2 in
  let after := (api.send m path b remote logged).2 in
  network after =
    {| method := m; baseURL := api.api_baseURL; url := path;
       authorization := Some ("Bearer " +:+ cred_token data); body := b |}
    :: network logged.
Proof.
  intros Hne. cbv zeta. rewrite login_resolve_evaluated, send_evaluated.
  cbn [snd localStorage network].
  rewrite (bearer_Some _ (cred_token data)); [reflexivity| |exact Hne].
  apply lookup_insert_eq.
Qed.

(** X9.  After a logout, however the server answered it, the next call
    through the adapter carries no credential. *)
Theorem request_after_logout_carries_no_token {A : Type}
    (logout_remote : axios.Outcome unit) (app : App)
    (m : Method) (path : string) (b : Body) (remote : axios.Outcome A) :
  let loggedOut := (authOps.logout logout_remote app).2 in
  let after := (api.send m path b remote loggedOut).2 in
  network after =
    {| method := m; baseURL := api.api_baseURL; url := path;
       authorization := None; body := b |}
    :: network loggedOut.
Proof.
  cbv zeta. rewrite logout_full_evaluated, send_evaluated.
  cbn [snd localStorage network]. rewrite lookup_delete_eq. reflexivity.
Qed.

(** ** The contacts API behind the adapter *)

(** X10.  When the server answers the authenticated [fetchContacts] with
    status 401, the token is removed from the storage but the session is
    left as it was, logged in if it was; the collection keeps its
    contacts and the failure is recorded in the contacts slice. *)
Theorem fetchContacts_401_keeps_session
    (error : axios.Error) (app : App) :
  axios.response_status error = Some 401%N ->
  let after := contactsApiOps.fetchContacts (axios.reject error) app in
  localStorage after.2 !! "token" = None /\
  auth (store after.2) = auth (store app) /\
  PrivateRoute (store after.2) = PrivateRoute (store app) /\
  contactsSlice.items (contacts (store after.2)) =
    contactsSlice.items (contacts (store app)) /\
  contactsSlice.status (contacts (store after.2)) = failed.
Proof.
  intros H. cbv zeta.
  unfold contactsApiOps.fetchContacts, createAsyncThunk, bind, dispatch.
  rewrite send_evaluated. rewrite H.
  rewrite bool_decide_eq_true_2 by reflexivity.
  cbn [fst snd ret store localStorage auth contacts rootReducer].
  repeat split. apply lookup_delete_eq.
Qed.

(** ** The contacts thunks *)

Lemma error_message_spec (error : axios.Error) (fallback : string) :
  contactsOps.error_message error fallback = message_or error fallback.
Proof.
  unfold contactsOps.error_message, message_or, Js.or_else.
  destruct (axios.message error); reflexivity.
Qed.

Lemma message_or_nonempty (error : axios.Error) (fallback : string) :
  fallback <> "" -> message_or error fallback <> "".
Proof.
  intros H. unfold message_or. destruct (axios.message error); [exact H | discriminate].
Qed.

Lemma rejected_case_error (state : contactsSlice.State) (text : string) :
  text <> "" ->
  contactsSlice.error (contactsSlice.rejected_case state (Some text)) = Some text.
Proof. intros H. destruct text; [contradiction | reflexivity]. Qed.

(** X11.  Each of the four contacts thunks, when its call fails, settles
    rejected with the message of the error, or with its own fallback text
    when that message is empty; the collection is the one it was, the
    status is failed and the error is that text, which is never empty;
    the session, the filters and the storage are untouched. *)
Theorem contacts_failure_keeps_collection
    (contact updates : FormData) (i : string) (error : axios.Error) (app : App) :
  let fetched := contactsOps.fetchContacts (axios.reject error) app in
  let added := contactsOps.addContact contact (axios.reject error) app in
  let updated := contactsOps.updateContact i updates (axios.reject error) app in
  let deleted := contactsOps.deleteContact i (axios.reject error) app in
  (fetched.1 = rejected (message_or error "Failed to fetch contacts") /\
   failedWith app fetched.2 (message_or error "Failed to fetch contacts") /\
   message_or error "Failed to fetch contacts" <> "") /\
  (added.1 = rejected (message_or error "Failed to add contact") /\
   failedWith app added.2 (message_or error "Failed to add contact") /\
   message_or error "Failed to add contact" <> "") /\
  (updated.1 = rejected (message_or error "Failed to update contact") /\
   failedWith app updated.2 (message_or error "Failed to update contact") /\
   message_or error "Failed to update contact" <> "") /\
  (deleted.1 = rejected (message_or error "Failed to delete contact") /\
   failedWith app deleted.2 (message_or error "Failed to delete contact") /\
   message_or error "Failed to delete contact" <> "").
Proof.
  cbv zeta.
  unfold contactsOps.fetchContacts, contactsOps.addContact,
    contactsOps.updateContact, contactsOps.deleteContact,
    createAsyncThunk, contactsOps.send, bind, dispatch, transmit, ret.
  cbn [fst snd store localStorage network].
  rewrite !error_message_spec.
  repeat match goal with
         | |- _ /\ _ => split
         end;
    try reflexivity;
    try (apply message_or_nonempty; discriminate);
    unfold failedWith; cbn [store localStorage contacts auth filters rootReducer
                            contactsSlice.reducer contactsSlice.items
                            contactsSlice.status contactsSlice.rejected_case
                            contactsSlice.pending];
    repeat split;
    apply (rejected_case_error (contactsSlice.pending _));
    apply message_or_nonempty; discriminate.
Qed.

(** X12.  Each of the four contacts thunks, when its call succeeds, leaves
    the status succeeded and the error cleared, whatever error an earlier
    failure had recorded; the session, the filters and the storage are
    untouched. *)
Theorem contacts_success_clears_error
    (server : list Contact) (contact updates : FormData) (data : Contact)
    (i : string) (app : App) :
  succeededCleanly app
    (contactsOps.fetchContacts (axios.resolve server) app).2 /\
  succeededCleanly app
    (contactsOps.addContact contact (axios.resolve data) app).2 /\
  succeededCleanly app
    (contactsOps.updateContact i updates (axios.resolve data) app).2 /\
  succeededCleanly app
    (contactsOps.deleteContact i (axios.resolve tt) app).2.
Proof. repeat split. Qed.

(** ** Unique ids *)

Lemma elem_of_ids_filter (p : Contact -> bool) (l : list Contact) (x : string) :
  x ∈ id <$> List.filter p l -> x ∈ id <$> l.
Proof.
  induction l as [|c l IH]; cbn [List.filter]; [auto|].
  destruct (p c); rewrite !fmap_cons, ?elem_of_cons.
  - intros [->|H]; auto.
  - auto.
Qed.

Lemma uniqueIds_filter (p : Contact -> bool) (l : list Contact) :
  uniqueIds l -> uniqueIds (List.filter p l).
Proof.
  unfold uniqueIds. induction l as [|c l IH]; cbn [List.filter]; [auto|].
  rewrite fmap_cons, NoDup_cons. intros [Hc Hl].
  destruct (p c); [|auto].
  rewrite fmap_cons, NoDup_cons. split; [|auto].
  intros H. apply Hc. eapply elem_of_ids_filter; eauto.
Qed.

Lemma update_keeps_ids (state : contactsSlice.State) (i : string)
    (payload : Contact) :
  id payload = i ->
  id <$> contactsSlice.items
           (contactsSlice.reducer state
              (contactsSlice.updateContact_fulfilled i payload)) =
  id <$> contactsSlice.items state.
Proof.
  intros Hid. cbn [contactsSlice.reducer contactsSlice.items].
  destruct (contactsSlice.findIndex
              (fun contact => String.eqb (id contact) i)
              (contactsSlice.items state)) as [k|] eqn:E; [|reflexivity].
  apply findIndex_Some in E as [[c [Hk Hc]] _].
  apply String.eqb_eq in Hc.
  rewrite list_fmap_insert. apply list_insert_id.
  rewrite list_lookup_fmap, Hk. cbn. congruence.
Qed.

(** X13.  The reducer of the contacts slice keeps the ids unique: when no
    two contacts share an id, they still do not after any action,
    provided a fetched list has no repeated id, a created contact has an
    id not yet in the collection, and an updated contact comes back with
    the id that was asked for. *)
Theorem contacts_reducer_keeps_ids_unique
    (state : contactsSlice.State) (action : contactsSlice.Action) :
  uniqueIds (contactsSlice.items state) ->
  bringsUniqueIds (contactsSlice.items state) action ->
  uniqueIds (contactsSlice.items (contactsSlice.reducer state action)).
Proof.
  intros Hu Hb.
  destruct action; try exact Hu; cbn [bringsUniqueIds] in Hb.
  - exact Hb.
  - cbn [contactsSlice.reducer contactsSlice.items]. unfold uniqueIds.
    rewrite fmap_cons, NoDup_cons. auto.
  - unfold uniqueIds. rewrite update_keeps_ids by exact Hb. exact Hu.
  - cbn [contactsSlice.reducer contactsSlice.items]. apply uniqueIds_filter, Hu.
Qed.

(** ** Deleting *)

Lemma filter_all (p : Contact -> bool) (l : list Contact) :
  (forall c, c ∈ l -> p c = true) -> List.filter p l = l.
Proof.
  induction l as [|c l IH]; cbn [List.filter]; [reflexivity|].
  intros H. rewrite (H c) by left. f_equal. apply IH.
  intros c' Hc'. apply H. now right.
Qed.

Lemma filter_removes_one (i : string) (l : list Contact) :
  uniqueIds l ->
  (exists c, c ∈ l /\ id c = i) ->
  length (List.filter (fun contact => negb (String.eqb (id contact) i)) l) + 1 =
  length l.
Proof.
  unfold uniqueIds. induction l as [|x l IH]; intros Hu [c [Hin Hc]].
  - inversion Hin.
  - rewrite fmap_cons, NoDup_cons in Hu. destruct Hu as [Hx Hl].
    cbn [List.filter length].
    destruct (String.eqb (id x) i) eqn:E; cbn [negb length].
    + apply String.eqb_eq in E. rewrite filter_all; [lia|].
      intros c' Hc'. apply negb_true_iff, String.eqb_neq.
      intros Heq. apply Hx. rewrite E, <- Heq.
      apply list_elem_of_fmap_2. exact Hc'.
    + apply String.eqb_neq in E.
      apply elem_of_cons in Hin as [->|Hin]; [contradiction|].
      rewrite <- (IH Hl); [lia|]. exists c. auto.
Qed.

(** X14.  Deleting an id that no contact of the collection has leaves the
    collection exactly as it was. *)
Theorem deleteContact_absent_id_changes_nothing (i : string) (app : App) :
  (forall c, c ∈ contactsSlice.items (contacts (store app)) -> id c <> i) ->
  contactsSlice.items
    (contacts (store (contactsOps.deleteContact i (axios.resolve tt) app).2)) =
  contactsSlice.items (contacts (store app)).
Proof.
  intros H. rewrite deleteContact_resolve.
  cbn [rootReducer contacts contactsSlice.reducer contactsSlice.items
       contactsSlice.pending].
  apply filter_all. intros c Hc.
  apply negb_true_iff, String.eqb_neq, H, Hc.
Qed.

(** X15.  In a collection without repeated ids, deleting the id of one of
    its contacts shortens the collection by exactly one element. *)
Theorem deleteContact_removes_exactly_one (i : string) (app : App) :
  uniqueIds (contactsSlice.items (contacts (store app))) ->
  (exists c, c ∈ contactsSlice.items (contacts (store app)) /\ id c = i) ->
  length
    (contactsSlice.items
       (contacts (store (contactsOps.deleteContact i (axios.resolve tt) app).2)))
  + 1 =
  length (contactsSlice.items (contacts (store app))).
Proof.
  intros Hu Hex. rewrite deleteContact_resolve.
  cbn [rootReducer contacts contactsSlice.reducer contactsSlice.items
       contactsSlice.pending].
  apply filter_removes_one; assumption.
Qed.

(** ** More on the filtered view *)

Lemma filter_filter_comm {A : Type} (p q : A -> bool) (l : list A) :
  List.filter p (List.filter q l) = List.filter q (List.filter p l).
Proof.
  induction l as [|x l IH]; cbn [List.filter]; [reflexivity|].
  destruct (p x) eqn:Ep, (q x) eqn:Eq; cbn [List.filter];
    rewrite ?Ep, ?Eq, IH; reflexivity.
Qed.

(** X16.  The view of the collection after a delete is the view before it
    without the contacts of the deleted id: filtering and deleting can be
    done in either order. *)
Theorem filteredView_after_delete
    (i search filter : string) (state : contactsSlice.State) :
  filteredView
    (contactsSlice.items
       (contactsSlice.reducer state (contactsSlice.deleteContact_fulfilled i)))
    search filter =
  contactsSlice.items
    (contactsSlice.reducer
       {| contactsSlice.items :=
            filteredView (contactsSlice.items state) search filter;
          contactsSlice.status := contactsSlice.status state;
          contactsSlice.error := contactsSlice.error state |}
       (contactsSlice.deleteContact_fulfilled i)).
Proof.
  cbn [contactsSlice.reducer contactsSlice.items]. unfold filteredView.
  apply filter_filter_comm.
Qed.

Lemma filter_none {A : Type} (p : A -> bool) (l : list A) :
  (forall x, p x = false) -> List.filter p l = [].
Proof.
  intros H. induction l as [|x l IH]; cbn [List.filter]; [reflexivity|].
  rewrite H. exact IH.
Qed.

(** X17.  A filter value other than "all", "hasEmail" and "hasPhone"
    passes no contact: the view is empty whatever the collection and the
    search text. *)
Theorem filteredView_unknown_filter_is_empty
    (items : list Contact) (search filter : string) :
  filter <> "all" -> filter <> "hasEmail" -> filter <> "hasPhone" ->
  filteredView items search filter = [].
Proof.
  intros H1 H2 H3. unfold filteredView. apply filter_none. intros c.
  unfold matchesFilter.
  apply String.eqb_neq in H1, H2, H3. rewrite H1, H2, H3.
  apply andb_false_r.
Qed.

(** X18.  With the filter set to "all" and a search text that is empty or
    only white space, the selector returns the whole collection, in order;
    that is the case in the initial state of the filters. *)
Theorem selectFilteredContacts_blank_query_shows_all
    (state : RootState) (search : string) :
  Js.trim search = "" ->
  selectFilteredContacts
    (rootReducer
       (rootReducer state (FiltersAction (filtersSlice.setSearch search)))
       (FiltersAction (filtersSlice.setFilter "all"))) =
  contactsSlice.items (contacts state) /\
  selectFilteredContacts
    {| auth := auth state; contacts := contacts state;
       filters := filtersSlice.initialState |} =
  contactsSlice.items (contacts state).
Proof.
  intros H. unfold selectFilteredContacts, filteredView.
  cbn [rootReducer filters contacts filtersSlice.reducer filtersSlice.search
       filtersSlice.filter filtersSlice.initialState].
  rewrite H. split; apply filter_all; intros c _; reflexivity.
Qed.

(** ** Case of the search text *)

Lemma isWhiteSpace_lowerChar (c : ascii) :
  Js.isWhiteSpace (Js.lowerChar c) = Js.isWhiteSpace c.
Proof. destruct c as [[] [] [] [] [] [] [] []]; vm_compute; reflexivity. Qed.

Lemma lowerChar_idempotent (c : ascii) :
  Js.lowerChar (Js.lowerChar c) = Js.lowerChar c.
Proof. destruct c as [[] [] [] [] [] [] [] []]; vm_compute; reflexivity. Qed.

Lemma toLowerCase_idempotent (s : string) :
  Js.toLowerCase (Js.toLowerCase s) = Js.toLowerCase s.
Proof.
  induction s as [|c s IH]; cbn [Js.toLowerCase]; [reflexivity|].
  now rewrite lowerChar_idempotent, IH.
Qed.

Lemma trimStart_toLowerCase (s : string) :
  Js.trimStart (Js.toLowerCase s) = Js.toLowerCase (Js.trimStart s).
Proof.
  induction s as [|c s IH]; cbn [Js.toLowerCase Js.trimStart]; [reflexivity|].
  rewrite isWhiteSpace_lowerChar. destruct (Js.isWhiteSpace c); auto.
Qed.

Lemma trimEnd_toLowerCase (s : string) :
  Js.trimEnd (Js.toLowerCase s) = Js.toLowerCase (Js.trimEnd s).
Proof.
  induction s as [|c s IH]; cbn [Js.toLowerCase Js.trimEnd]; [reflexivity|].
  rewrite IH, isWhiteSpace_lowerChar.
  destruct (Js.trimEnd s); cbn [Js.toLowerCase];
    [destruct (Js.isWhiteSpace c)|]; reflexivity.
Qed.

Lemma trim_toLowerCase (s : string) :
  Js.trim (Js.toLowerCase s) = Js.toLowerCase (Js.trim s).
Proof. unfold Js.trim. now rewrite trimStart_toLowerCase, trimEnd_toLowerCase. Qed.

(** X19.  The search does not depend on the case of the search text: two
    texts that differ only in the case of their letters select the same
    contacts. *)
Theorem filteredView_ignores_case_of_search
    (items : list Contact) (search1 search2 filter : string) :
  Js.toLowerCase search1 = Js.toLowerCase search2 ->
  filteredView items search1 filter = filteredView items search2 filter.
Proof.
  intros H. unfold filteredView.
  rewrite <- !trim_toLowerCase, H. reflexivity.
Qed.

(** ** The forms of the contacts *)

(** X20.  A contact form whose trimmed name and trimmed phone are not empty
    sends exactly one request, a POST of the four trimmed fields, and is
    reset to the empty form whatever the answer; the contact the server
    returns is put first, and a failure leaves the collection as it was. *)
Theorem contact_form_valid_submit
    (remote : axios.Outcome Contact) (formData : FormData) (app : App) :
  Js.trim (form_name formData) <> "" ->
  Js.trim (form_phone formData) <> "" ->
  let payload :=
    {| form_name := Js.trim (form_name formData);
       form_phone := Js.trim (form_phone formData);
       form_email := Js.trim (form_email formData);
       form_avatar := Js.trim (form_avatar formData) |} in
  let after := submitContactForm remote formData app in
  after.1 = ContactForm.emptyContact /\
  network after.2 =
    {| method := POST; baseURL := contactsOps.contacts_baseURL; url := "/";
       authorization := None; body := ContactBody payload |} :: network app /\
  contactsSlice.items (contacts (store after.2)) =
    match remote with
    | axios.resolve data => data :: contactsSlice.items (contacts (store app))
    | axios.reject _ => contactsSlice.items (contacts (store app))
    end.
Proof.
  intros Hn Hp. cbv zeta.
  unfold submitContactForm, ContactForm.handleSubmit. cbn [form_name form_phone].
  apply truthy_true_iff in Hn, Hp. rewrite Hn, Hp. cbn [negb orb].
  unfold App_handleSubmit, contactsOps.addContact, createAsyncThunk,
    contactsOps.send, bind, dispatch, transmit, ret.
  destruct remote as [data|error]; repeat split.
Qed.

(** X21.  The edit modal rejects locally: when the trimmed name or the
    trimmed phone is empty, submitting it sends nothing, changes nothing
    and leaves the modal open on the contact being edited. *)
Theorem edit_modal_rejects_locally
    (remote : axios.Outcome Contact) (editingContact : Contact)
    (formData : FormData) (app : App) (ui : uiSlice.State) :
  Js.trim (form_name formData) = "" \/ Js.trim (form_phone formData) = "" ->
  EditModal.handleSubmit remote editingContact formData (app, ui) = (app, ui).
Proof.
  intros H. unfold EditModal.handleSubmit. cbn [form_name form_phone].
  destruct H as [H|H]; rewrite H; cbn [Js.truthy negb orb].
  - reflexivity.
  - rewrite orb_true_r. reflexivity.
Qed.


(** ** The forms of the session *)

Lemma includes_at_start (s sub : string) :
  Js.includes (sub +:+ s) sub = true.
Proof. apply includes_spec. exists "", s. reflexivity. Qed.

(** X23.  Neither session form calls the server with a blank field: the
    login form with an email that trims to nothing or an empty password,
    and the register form with a name or an email that trims to nothing or
    an empty password, return at once; nothing is dispatched, sent,
    notified or navigated to. *)
Theorem session_forms_reject_blank_fields
    (name email password : string)
    (remote : axios.Outcome Credential) (app : App) :
  (Js.trim email = "" \/ password = "" ->
   LoginForm.handleSubmit email password remote app = ([], app)) /\
  (Js.trim name = "" \/ Js.trim email = "" \/ password = "" ->
   RegisterForm.handleSubmit name email password remote app = ([], app)).
Proof.
  split; intros H.
  - unfold LoginForm.handleSubmit.
    destruct H as [H|H]; rewrite H; cbn [Js.truthy negb orb];
      rewrite ?orb_true_r; reflexivity.
  - unfold RegisterForm.handleSubmit.
    destruct H as [H|[H|H]]; rewrite H; cbn [Js.truthy negb orb];
      rewrite ?orb_true_r; reflexivity.
Qed.

(** X24.  When the server rejects the signup of a filled register form
    with status 400 or 409, the form shows the notification that the user
    is already registered, and nothing else: it does not navigate. *)
Theorem register_form_reports_existing_user
    (name email password : string) (error : axios.Error)
    (response : axios.Response) (app : App) :
  Js.trim name <> "" -> Js.trim email <> "" -> password <> "" ->
  axios.response error = Some response ->
  axios.status response = 400%N \/ axios.status response = 409%N ->
  (RegisterForm.handleSubmit name email password (axios.reject error) app).1 =
  [ toast_error UserAlreadyRegistered ].
Proof.
  intros Hn He Hp Hresp Hstatus.
  unfold RegisterForm.handleSubmit.
  apply truthy_true_iff in Hn, He, Hp. rewrite Hn, He, Hp. cbn [negb orb].
  unfold bind.
  destruct (register_reject_evaluated (Js.trim name) (Js.trim email) password
              error app) as (H1 & _).
  destruct (authOps.register (Js.trim name) (Js.trim email) password
              (axios.reject error) app) as [result app'].
  cbn [fst] in H1. subst result.
  assert (axios.response_status error = Some (axios.status response)) as ->.
  { unfold axios.response_status. rewrite Hresp. reflexivity. }
  assert (RegisterForm.alreadyRegistered
            (if ((axios.status response =? 400) || (axios.status response =? 409))%N
             then pretty (axios.status response) +:+ ":" +:+
                  failure_text error "Registration failed"
             else failure_text error "Registration failed") = true) as ->.
  { unfold RegisterForm.alreadyRegistered.
    destruct Hstatus as [-> | ->]; cbn [N.eqb Pos.eqb orb].
    - change (pretty 400%N +:+ ":" +:+ failure_text error "Registration failed")
        with ("400:" +:+ failure_text error "Registration failed").
      rewrite includes_at_start. reflexivity.
    - change (pretty 409%N +:+ ":" +:+ failure_text error "Registration failed")
        with ("409:" +:+ failure_text error "Registration failed").
      rewrite includes_at_start, orb_true_r. reflexivity. }
  reflexivity.
Qed.

(** X25.  A filled login form: when the server accepts, the form greets
    the user by the name the server returned and navigates to /contacts,
    where the private route shows the page (the spinner while a refresh is
    pending) and the public route redirects to /contacts; when the login
    fails, the form shows the text of the failure and does not navigate,
    and the public route keeps showing the login page. *)
Theorem login_form_outcomes
    (email password : string) (remote : axios.Outcome Credential) (app : App) :
  Js.trim email <> "" -> password <> "" ->
  let after := LoginForm.handleSubmit email password remote app in
  match remote with
  | axios.resolve data =>
      after.1 =
        [ toast_success
            (Text ("Welcome back, " +:+ user_name (cred_user data) +:+ "!"));
          navigate "/contacts" ] /\
      PublicRoute (store after.2) = Redirect "/contacts" /\
      PrivateRoute (store after.2) =
        (if authSlice.isRefreshing (auth (store app)) then Spinner else Children)
  | axios.reject error =>
      after.1 = [ toast_error (Text (failure_text error "Login failed")) ] /\
      PublicRoute (store after.2) = Children
  end.
Proof.
  intros He Hp. cbv zeta. unfold LoginForm.handleSubmit.
  apply truthy_true_iff in He, Hp. rewrite He, Hp. cbn [negb orb].
  unfold bind. destruct remote as [data|error].
  - rewrite login_resolve_evaluated. repeat split.
  - rewrite login_reject_evaluated. cbn [fst snd ret]. split; [|reflexivity].
    assert (failure_text error "Login failed" <> "") as Hne
      by (apply failure_text_nonempty; discriminate).
    unfold Js.or_else.
    destruct (failure_text error "Login failed"); [contradiction | reflexivity].
Qed.

(** X26.  Logging out from the user menu, whatever the server answers,
    navigates to /login and leaves a session for which the public route
    shows the login page and the private route never shows its page; the
    token is gone from the storage. *)
Theorem user_menu_logout_lands_on_login
    (remote : axios.Outcome unit) (app : App) :
  let after := UserMenu.handleLogout remote app in
  after.1 = [ navigate "/login" ] /\
  PublicRoute (store after.2) = Children /\
  PrivateRoute (store after.2) <> Children /\
  localStorage after.2 !! "token" = None.
Proof.
  cbv zeta. unfold UserMenu.handleLogout, bind.
  rewrite logout_full_evaluated. cbn [fst snd ret store localStorage].
  split; [reflexivity|]. split; [reflexivity|]. split.
  - unfold PrivateRoute. cbn [rootReducer auth authSlice.reducer
                              authSlice.isRefreshing authSlice.isLoggedIn].
    destruct (authSlice.isRefreshing (auth (store app))); discriminate.
  - apply lookup_delete_eq.
Qed.

(** * Instances of the further properties *)

Lemma refreshUser_success_restores_user_witness :
  let data := {| user_name := "Ali"; user_email := "ali@x.com" |} in
  (localStorage aliApp !! "token" = Some "jwt-1" /\ "jwt-1" <> "") /\
  authorization <$> network (authOps.refreshUser (axios.resolve data) aliApp).2 =
    [ Some "Bearer jwt-1" ].
Proof.
  intros data.
  assert (localStorage aliApp !! "token" = Some "jwt-1") as H1 by reflexivity.
  assert ("jwt-1" <> "") as H2 by discriminate.
  split; [split; assumption|].
  destruct (refreshUser_success_restores_user "jwt-1" data aliApp H1 H2)
    as (_ & _ & _ & H).
  rewrite H. reflexivity.
Defined.

Lemma refreshUser_failure_leaves_no_token_witness :
  (authOps.refreshUser (axios.reject offline) freshApp).1 =
    rejected "Token not found" /\
  network (authOps.refreshUser (axios.reject offline) freshApp).2 = [].
Proof.
  assert ((authOps.refreshUser (axios.reject offline) freshApp).1 =
          rejected "Token not found") as H by reflexivity.
  split; [exact H|].
  destruct (refreshUser_failure_leaves_no_token (axios.reject offline) freshApp
              "Token not found" H) as [_ Hlocal].
  destruct (Hlocal eq_refl) as [Hn _]. exact Hn.
Defined.

Lemma main_without_token_does_nothing_witness :
  let data := {| user_name := "Ali"; user_email := "ali@x.com" |} in
  Js.truthy_opt (localStorage freshApp !! "token") = false /\
  main (axios.resolve data) freshApp = (tt, freshApp).
Proof.
  intros data. split; [reflexivity|].
  exact (main_without_token_does_nothing (axios.resolve data) freshApp eq_refl).
Defined.

Lemma main_with_token_restores_or_expires_witness :
  (localStorage aliApp !! "token" = Some "jwt-1" /\ "jwt-1" <> "") /\
  authSlice.error (auth (store (main (axios.reject unauthorized) aliApp).2)) =
    Some "Session expired" /\
  localStorage (main (axios.reject unauthorized) aliApp).2 !! "token" = None.
Proof.
  assert (localStorage aliApp !! "token" = Some "jwt-1") as H1 by reflexivity.
  assert ("jwt-1" <> "") as H2 by discriminate.
  split; [split; assumption|].
  destruct (main_with_token_restores_or_expires "jwt-1"
              (axios.reject unauthorized) aliApp H1 H2) as (_ & _ & He & Hs).
  split; assumption.
Defined.


Lemma request_after_login_carries_token_witness :
  let data := {| cred_user := {| user_name := "Ali"; user_email := "ali@x.com" |};
                 cred_token := "jwt-2" |} in
  let logged := (authOps.login "ali@x.com" "secret12" (axios.resolve data)
                   freshApp).2 in
  cred_token data <> "" /\
  authorization <$>
    network (api.send GET "/contacts" NoBody
               (axios.resolve ([] : list Contact)) logged).2 =
    [ Some "Bearer jwt-2"; None ].
Proof.
  intros data logged.
  assert (cred_token data <> "") as H by discriminate.
  split; [exact H|]. subst logged.
  rewrite (request_after_login_carries_token "ali@x.com" "secret12" data freshApp
             GET "/contacts" NoBody (axios.resolve ([] : list Contact)) H).
  reflexivity.
Defined.

Lemma fetchContacts_401_keeps_session_witness :
  let after := contactsApiOps.fetchContacts (axios.reject unauthorized) aliApp in
  axios.response_status unauthorized = Some 401%N /\
  localStorage after.2 !! "token" = None /\
  authSlice.isLoggedIn (auth (store after.2)) = true /\
  PrivateRoute (store after.2) = Children.
Proof.
  intros after. split; [reflexivity|].
  destruct (fetchContacts_401_keeps_session unauthorized aliApp eq_refl)
    as (H1 & H2 & H3 & _).
  split; [exact H1|]. split.
  - fold after in H2. rewrite H2. reflexivity.
  - fold after in H3. rewrite H3. reflexivity.
Defined.

Lemma contacts_reducer_keeps_ids_unique_witness :
  let state := contacts (store aliApp) in
  let cy := {| id := "3"; name := "Cy"; phone := "333";
               email := None; avatar := None |} in
  uniqueIds (contactsSlice.items state) /\
  id <$> contactsSlice.items
           (contactsSlice.reducer state (contactsSlice.addContact_fulfilled cy)) =
    ["3"; "1"; "2"] /\
  uniqueIds
    (contactsSlice.items
       (contactsSlice.reducer state (contactsSlice.addContact_fulfilled cy))).
Proof.
  intros state cy.
  assert (uniqueIds (contactsSlice.items state)) as Hu.
  { unfold uniqueIds. cbn. repeat (apply NoDup_cons; split);
      [| |apply NoDup_nil_2]; rewrite ?elem_of_cons, elem_of_nil; intuition discriminate. }
  assert (bringsUniqueIds (contactsSlice.items state)
            (contactsSlice.addContact_fulfilled cy)) as Hb.
  { cbn. rewrite !elem_of_cons, elem_of_nil. intuition discriminate. }
  split; [exact Hu|]. split; [reflexivity|].
  exact (contacts_reducer_keeps_ids_unique state _ Hu Hb).
Defined.

Lemma deleteContact_absent_id_changes_nothing_witness :
  (forall c, c ∈ contactsSlice.items (contacts (store aliApp)) -> id c <> "9") /\
  id <$> contactsSlice.items
           (contacts (store (contactsOps.deleteContact "9" (axios.resolve tt)
                               aliApp).2)) = ["1"; "2"].
Proof.
  assert (forall c, c ∈ contactsSlice.items (contacts (store aliApp)) ->
                    id c <> "9") as H.
  { intros c Hc. cbn in Hc. rewrite !elem_of_cons, elem_of_nil in Hc.
    destruct Hc as [->|[->|[]]]; discriminate. }
  split; [exact H|].
  rewrite (deleteContact_absent_id_changes_nothing "9" aliApp H). reflexivity.
Defined.

Lemma deleteContact_removes_exactly_one_witness :
  let items := contactsSlice.items (contacts (store aliApp)) in
  uniqueIds items /\
  (exists c, c ∈ items /\ id c = "2") /\
  length
    (contactsSlice.items
       (contacts (store (contactsOps.deleteContact "2" (axios.resolve tt)
                           aliApp).2))) + 1 = 2.
Proof.
  intros items.
  assert (uniqueIds items) as Hu.
  { unfold uniqueIds. cbn. repeat (apply NoDup_cons; split);
      [| |apply NoDup_nil_2]; rewrite ?elem_of_cons, elem_of_nil; intuition discriminate. }
  assert (exists c, c ∈ items /\ id c = "2") as Hex.
  { exists {| id := "2"; name := "Bo"; phone := "222";
              email := Some "bo@x.com"; avatar := None |}.
    split; [right; left | reflexivity]. }
  split; [exact Hu|]. split; [exact Hex|].
  exact (deleteContact_removes_exactly_one "2" aliApp Hu Hex).
Defined.

Lemma filteredView_unknown_filter_is_empty_witness :
  ("favourites" <> "all" /\ "favourites" <> "hasEmail" /\
   "favourites" <> "hasPhone") /\
  filteredView (contactsSlice.items (contacts (store aliApp))) "" "favourites" = [].
Proof.
  assert ("favourites" <> "all") as H1 by discriminate.
  assert ("favourites" <> "hasEmail") as H2 by discriminate.
  assert ("favourites" <> "hasPhone") as H3 by discriminate.
  split; [repeat split; assumption|].
  exact (filteredView_unknown_filter_is_empty _ "" "favourites" H1 H2 H3).
Defined.

Lemma selectFilteredContacts_blank_query_shows_all_witness :
  Js.trim "   " = "" /\
  id <$> selectFilteredContacts
           (rootReducer
              (rootReducer (store aliApp)
                 (FiltersAction (filtersSlice.setSearch "   ")))
              (FiltersAction (filtersSlice.setFilter "all"))) = ["1"; "2"].
Proof.
  split; [reflexivity|].
  rewrite (proj1 (selectFilteredContacts_blank_query_shows_all
                    (store aliApp) "   " eq_refl)).
  reflexivity.
Defined.

Lemma filteredView_ignores_case_of_search_witness :
  let items := contactsSlice.items (contacts (store aliApp)) in
  Js.toLowerCase "ANN" = Js.toLowerCase "ann" /\
  filteredView items "ANN" "all" = filteredView items "ann" "all" /\
  id <$> filteredView items "ANN" "all" = ["1"].
Proof.
  intros items. split; [reflexivity|]. split; [|reflexivity].
  exact (filteredView_ignores_case_of_search items "ANN" "ann" "all" eq_refl).
Defined.

Lemma contact_form_valid_submit_witness :
  let formData := {| form_name := " Cy "; form_phone := "333 ";
                     form_email := ""; form_avatar := "" |} in
  (Js.trim (form_name formData) <> "" /\ Js.trim (form_phone formData) <> "") /\
  (submitContactForm (axios.reject offline) formData aliApp).1 =
    ContactForm.emptyContact /\
  method <$> network (submitContactForm (axios.reject offline) formData aliApp).2 =
    [ POST ] /\
  id <$> contactsSlice.items
           (contacts (store (submitContactForm (axios.reject offline)
                               formData aliApp).2)) = ["1"; "2"].
Proof.
  intros formData.
  assert (Js.trim (form_name formData) <> "") as H1 by discriminate.
  assert (Js.trim (form_phone formData) <> "") as H2 by discriminate.
  split; [split; assumption|].
  destruct (contact_form_valid_submit (axios.reject offline) formData aliApp
              H1 H2) as (Hf & Hn & Hi).
  split; [exact Hf|]. split.
  - rewrite Hn. reflexivity.
  - rewrite Hi. reflexivity.
Defined.

Lemma edit_modal_rejects_locally_witness :
  let bo := {| id := "2"; name := "Bo"; phone := "222";
               email := Some "bo@x.com"; avatar := None |} in
  let formData := {| form_name := "Bo"; form_phone := "   ";
                     form_email := "bo@x.com"; form_avatar := "" |} in
  let ui := {| uiSlice.editingContact := Some bo |} in
  (Js.trim (form_name formData) = "" \/ Js.trim (form_phone formData) = "") /\
  EditModal.handleSubmit (axios.resolve bo) bo formData (aliApp, ui) = (aliApp, ui).
Proof.
  intros bo formData ui.
  assert (Js.trim (form_name formData) = "" \/
          Js.trim (form_phone formData) = "") as H by (right; reflexivity).
  split; [exact H|].
  exact (edit_modal_rejects_locally (axios.resolve bo) bo formData aliApp ui H).
Defined.


Lemma session_forms_reject_blank_fields_witness :
  let data := {| cred_user := {| user_name := "Ali"; user_email := "ali@x.com" |};
                 cred_token := "jwt-2" |} in
  LoginForm.handleSubmit "  " "secret12" (axios.resolve data) freshApp =
    ([], freshApp) /\
  RegisterForm.handleSubmit "Ali" "ali@x.com" "" (axios.resolve data) freshApp =
    ([], freshApp).
Proof.
  intros data. split.
  - apply (proj1 (session_forms_reject_blank_fields "" "  " "secret12"
                    (axios.resolve data) freshApp)).
    left. reflexivity.
  - apply (proj2 (session_forms_reject_blank_fields "Ali" "ali@x.com" ""
                    (axios.resolve data) freshApp)).
    right. right. reflexivity.
Defined.

Lemma register_form_reports_existing_user_witness :
  (Js.trim "Ali" <> "" /\ Js.trim "ali@x.com" <> "" /\ "secret12" <> "") /\
  axios.response conflict =
    Some {| axios.status := 409;
            axios.data_message := Some "User already exists" |} /\
  (RegisterForm.handleSubmit "Ali" "ali@x.com" "secret12"
     (axios.reject conflict) freshApp).1 = [ toast_error UserAlreadyRegistered ].
Proof.
  assert (Js.trim "Ali" <> "") as H1 by discriminate.
  assert (Js.trim "ali@x.com" <> "") as H2 by discriminate.
  assert ("secret12" <> "") as H3 by discriminate.
  split; [repeat split; assumption|]. split; [reflexivity|].
  exact (register_form_reports_existing_user "Ali" "ali@x.com" "secret12"
           conflict _ freshApp H1 H2 H3 eq_refl (or_intror eq_refl)).
Defined.

Lemma login_form_outcomes_witness :
  let data := {| cred_user := {| user_name := "Ali"; user_email := "ali@x.com" |};
                 cred_token := "jwt-2" |} in
  let after := LoginForm.handleSubmit " ali@x.com " "secret12"
                 (axios.resolve data) freshApp in
  (Js.trim " ali@x.com " <> "" /\ "secret12" <> "") /\
  after.1 = [ toast_success (Text "Welcome back, Ali!"); navigate "/contacts" ] /\
  PrivateRoute (store after.2) = Children.
Proof.
  intros data after.
  assert (Js.trim " ali@x.com " <> "") as H1 by discriminate.
  assert ("secret12" <> "") as H2 by discriminate.
  split; [split; assumption|].
  destruct (login_form_outcomes " ali@x.com " "secret12" (axios.resolve data)
              freshApp H1 H2) as (He & _ & Hp).
  split; [exact He | exact Hp].
Defined.

Example register_form_network_failure :
  (RegisterForm.handleSubmit "Ali" "ali@x.com" "secret12"
     (axios.reject offline) freshApp).1 = [ toast_error RegistrationFailedRetry ].
Proof. reflexivity. Qed.
